(** * Read-side CRUD helpers of velour_api: area filters, mask reconstruction,
      label de-duplication.

    Shallow embedding of [backend/velour_api/crud/_read.py].

    - Python exceptions are values of [exn]; a computation either returns or
      raises ([exn + A]).
    - Calls into SQLAlchemy, the database session and PIL are recorded, in
      program order, in a log of [event]s carried next to the result, so that
      "fails before doing X" is a statement about the log.
    - A SQLAlchemy [Select] is the syntax tree it stands for: the selected
      entity, the joined tables and the list of [where] criteria, which
      SQLAlchemy conjoins.
    - A PIL image is its mode string, its size and its rows of pixel values. *)

From Stdlib Require Import ZArith QArith List String.
From stdpp Require Import base option list gmap sets strings.

Local Open Scope Z_scope.
#[local] Set Warnings "-clear-no-such-hyp".

(** ** Exceptions and the effect log *)

(** Modelled from the spec: the enumeration [schemas.Task] (also reached as
    [enums.Task]), whose declaration is not part of [_read.py]. The module
    names its first three members; the task kinds of the design add a
    classification task, and segmentations are "instance or semantic"
    ([is_instance]). *)
Inductive Task :=
| BBOX_OBJECT_DETECTION
| POLY_OBJECT_DETECTION
| INSTANCE_SEGMENTATION
| SEMANTIC_SEGMENTATION
| IMAGE_CLASSIFICATION.

#[global] Instance Task_eq_dec : EqDecision Task.
Proof. solve_decision. Defined.

(** The two [assert] statements of the module. *)
Inductive assertion :=
| Assert_single_ring   (* assert len(env["coordinates"]) == 1 *)
| Assert_mode_L.       (* assert raster.mode == "L" *)

(** Where a [ValueError] comes from. *)
Inductive value_error :=
| Expected_task_for_area_computation (got : option Task)
    (* raise ValueError("Expected task_for_area_computation to be ...") *)
| Expected_detection_task (got : Task)
    (* raise ValueError("Expected task to be a detection task but got ...") *)
| Empty_sequence       (* min() / max() of an empty list *)
| Images_do_not_match  (* Image.paste: box size differs from the source size *)
| Negative_size.       (* Image.new with a negative width or height *)

Inductive exn :=
| AssertionError (a : assertion)
| ValueError (v : value_error)
| IndexError
| UnidentifiedImageError.

(** Tables of [velour_api.models] used by the statements. *)
Module models.
Inductive Table :=
| Dataset | Model | Image
| GroundTruthDetection | PredictedDetection
| LabeledGroundTruthDetection | LabeledPredictedDetection
| GroundTruthSegmentation | PredictedSegmentation
| LabeledGroundTruthSegmentation | LabeledPredictedSegmentation.
End models.
Abbreviation Table := models.Table.

(** SQL expressions built by SQLAlchemy / GeoAlchemy2. The area bounds are
    Python floats that the module only tests for [None] and hands to the
    database; they are carried as rationals. *)
#[local] Unset Elimination Schemes.
Inductive sqlexpr :=
| Column (t : Table) (c : string)
| ST_Area (e : sqlexpr)
| ST_Envelope (e : sqlexpr)
| ST_ConvexHull (e : sqlexpr)
| ST_Boundary (e : sqlexpr)
| ST_Polygon (e : sqlexpr)
| ST_Count (e : sqlexpr)
| Str (s : string)
| Bool (b : bool)
| Float (q : Q)
| SqlEq (a b : sqlexpr)
| SqlGe (a b : sqlexpr)
| SqlLe (a b : sqlexpr)
| and_ (clauses : list sqlexpr).
#[local] Set Elimination Schemes.

Definition RasterElement := string.

(** Requests sent to the database with [db.scalar]. *)
Inductive db_request :=
| Req_AsGeoJSON_Envelope (r : RasterElement)  (* ST_AsGeoJSON(ST_Envelope(raster)) *)
| Req_AsPNG (r : RasterElement).              (* ST_AsPNG(raster) *)

Inductive event :=
| EvSelect (entity : Table)        (* select(entity) *)
| EvJoin (t : Table)               (* .join(t) *)
| EvWhere (crit : sqlexpr)         (* .where(crit) *)
| EvDbScalar (r : db_request)      (* db.scalar(...) *)
| EvImageOpen                      (* Image.open *)
| EvImageNew (w h : Z)             (* Image.new *)
| EvPaste                          (* Image.paste *)
| EvPoint                          (* Image.point *)
| EvConvert (mode : string)        (* Image.convert *)
| EvSave.                          (* Image.save *)

(** A computation: the events it performed, then its outcome. *)
Definition M (A : Type) : Type := list event * (exn + A).

Definition raise {A} (e : exn) : M A := ([], inl e).
Definition emit (ev : event) : M unit := ([ev], inr tt).

#[global] Instance M_ret : MRet M := λ A a, ([], inr a).
#[global] Instance M_bind : MBind M := λ A B f m,
  match m with
  | (log, inl e) => (log, inl e)
  | (log, inr a) => let '(log', r) := f a in (log ++ log', r)
  end.

Definition log_of {A} (m : M A) : list event := fst m.
Definition outcome {A} (m : M A) : exn + A := snd m.

Definition returns {A} (m : M A) (a : A) : Prop := outcome m = inr a.
Definition raises {A} (m : M A) (e : exn) : Prop := outcome m = inl e.

(** [x is None]. *)
Definition is_None {A} (x : option A) : bool :=
  match x with None => true | Some _ => false end.

(** Python's [assert]. *)
Definition assert_ (a : assertion) (b : bool) : M unit :=
  if b then mret tt else raise (AssertionError a).

(** ** SQLAlchemy statements *)

Record Select := mkSelect {
  sel_entity : Table;
  sel_joins : list Table;
  sel_where : list sqlexpr
}.

Definition select (entity : Table) : M Select :=
  emit (EvSelect entity);; mret (mkSelect entity [] []).

Definition join (t : Table) (stmt : Select) : M Select :=
  emit (EvJoin t);;
  mret (mkSelect (sel_entity stmt) (sel_joins stmt ++ [t]) (sel_where stmt)).

(** [stmt.where(crit)]: a new statement with one more criterion. *)
Definition where_ (crit : sqlexpr) (stmt : Select) : M Select :=
  emit (EvWhere crit);;
  mret (mkSelect (sel_entity stmt) (sel_joins stmt) (sel_where stmt ++ [crit])).

(** The column the area is computed from: [seg_table.shape] and
    [det_table.boundary]. *)
Definition shape (seg_table : Table) : sqlexpr := Column seg_table "shape"%string.
Definition boundary (det_table : Table) : sqlexpr := Column det_table "boundary"%string.

(** ** Area filters *)

Definition _filter_instance_segmentations_by_area
    (stmt : Select) (seg_table : Table)
    (task_for_area_computation : option Task)
    (min_area max_area : option Q) : M Select :=
  if is_None min_area && is_None max_area then mret stmt
  else
    let area_fn : sqlexpr → sqlexpr :=
      if decide (task_for_area_computation = Some BBOX_OBJECT_DETECTION) then
        λ x, ST_Area (ST_Envelope x)
      else if decide (task_for_area_computation = Some POLY_OBJECT_DETECTION) then
        λ x, ST_Area (ST_ConvexHull (ST_Boundary (ST_Polygon x)))
      else
        ST_Count in
    stmt ← match min_area with
            | Some min_area =>
                where_ (SqlGe (area_fn (shape seg_table)) (Float min_area)) stmt
            | None => mret stmt
            end;
    stmt ← match max_area with
            | Some max_area =>
                where_ (SqlLe (area_fn (shape seg_table)) (Float max_area)) stmt
            | None => mret stmt
            end;
    mret stmt.

Definition _filter_object_detections_by_area
    (stmt : Select) (det_table : Table)
    (task_for_area_computation : option Task)
    (min_area max_area : option Q) : M Select :=
  if is_None min_area && is_None max_area then mret stmt
  else
    area_fn ←
      (if decide (task_for_area_computation = Some BBOX_OBJECT_DETECTION) then
         mret (λ x, ST_Area (ST_Envelope x))
       else if decide (task_for_area_computation = Some POLY_OBJECT_DETECTION) then
         mret ST_Area
       else
         raise (ValueError
                  (Expected_task_for_area_computation task_for_area_computation)));
    stmt ← match min_area with
            | Some min_area =>
                where_ (SqlGe (area_fn (boundary det_table)) (Float min_area)) stmt
            | None => mret stmt
            end;
    stmt ← match max_area with
            | Some max_area =>
                where_ (SqlLe (area_fn (boundary det_table)) (Float max_area)) stmt
            | None => mret stmt
            end;
    mret stmt.

(** ** Statement builders *)

Definition _instance_segmentations_in_dataset_statement
    (dataset_name : string)
    (min_area max_area : option Q)
    (task_for_area_computation : option Task) : M Select :=
  stmt ← select models.LabeledGroundTruthSegmentation;
  stmt ← join models.GroundTruthSegmentation stmt;
  stmt ← join models.Image stmt;
  stmt ← join models.Dataset stmt;
  stmt ← where_
    (and_ [ Column models.GroundTruthSegmentation "is_instance";
            SqlEq (Column models.Dataset "name") (Str dataset_name) ]) stmt;
  _filter_instance_segmentations_by_area
    stmt models.GroundTruthSegmentation task_for_area_computation
    min_area max_area.

(** [task in [POLY_OBJECT_DETECTION, BBOX_OBJECT_DETECTION]] *)
Definition is_detection_task (task : Task) : bool :=
  bool_decide (task ∈ [POLY_OBJECT_DETECTION; BBOX_OBJECT_DETECTION]).

Definition _object_detections_in_dataset_statement
    (dataset_name : string) (task : Task)
    (min_area max_area : option Q)
    (task_for_area_computation : option Task) : M Select :=
  if negb (is_detection_task task) then
    raise (ValueError (Expected_detection_task task))
  else
    stmt ← select models.LabeledGroundTruthDetection;
    stmt ← join models.GroundTruthDetection stmt;
    stmt ← join models.Image stmt;
    stmt ← join models.Dataset stmt;
    stmt ← where_
      (and_ [ SqlEq (Column models.Dataset "name") (Str dataset_name);
              SqlEq (Column models.GroundTruthDetection "is_bbox")
                    (Bool (bool_decide (task = BBOX_OBJECT_DETECTION))) ]) stmt;
    _filter_object_detections_by_area
      stmt models.GroundTruthDetection task_for_area_computation
      min_area max_area.

Definition _model_instance_segmentation_preds_statement
    (model_name dataset_name : string)
    (min_area max_area : option Q)
    (task_for_area_computation : option Task) : M Select :=
  stmt ← select models.LabeledPredictedSegmentation;
  stmt ← join models.PredictedSegmentation stmt;
  stmt ← join models.Image stmt;
  stmt ← join models.Model stmt;
  stmt ← join models.Dataset stmt;
  stmt ← where_
    (and_ [ SqlEq (Column models.Model "name") (Str model_name);
            SqlEq (Column models.Dataset "name") (Str dataset_name);
            Column models.PredictedSegmentation "is_instance" ]) stmt;
  _filter_instance_segmentations_by_area
    stmt models.PredictedSegmentation task_for_area_computation
    min_area max_area.

Definition _model_object_detection_preds_statement
    (model_name dataset_name : string) (task : Task)
    (min_area max_area : option Q)
    (task_for_area_computation : option Task) : M Select :=
  if negb (is_detection_task task) then
    raise (ValueError (Expected_detection_task task))
  else
    stmt ← select models.LabeledPredictedDetection;
    stmt ← join models.PredictedDetection stmt;
    stmt ← join models.Image stmt;
    stmt ← join models.Model stmt;
    stmt ← join models.Dataset stmt;
    stmt ← where_
      (and_ [ SqlEq (Column models.Model "name") (Str model_name);
              SqlEq (Column models.Dataset "name") (Str dataset_name);
              SqlEq (Column models.PredictedDetection "is_bbox")
                    (Bool (bool_decide (task = BBOX_OBJECT_DETECTION))) ]) stmt;
    _filter_object_detections_by_area
      stmt models.PredictedDetection task_for_area_computation
      min_area max_area.

(** ** Images (PIL) *)

Definition bytes := list Byte.byte.

Module PIL.

(** An image: [im.mode], [im.size] and the pixel rows, top row first. A pixel
    of a single-band image is its intensity. *)
Record Image := mkImage {
  mode : string;
  width : Z;
  height : Z;
  data : list (list Z)
}.

(** [im.getpixel((x, y))], [None] outside the stored rows. *)
Definition getpixel (im : Image) (x y : Z) : option Z :=
  if bool_decide (0 ≤ x ∧ 0 ≤ y) then
    row ← data im !! Z.to_nat y; row !! Z.to_nat x
  else None.

(** The PNG encoder and decoder of PIL and the base64 functions of the standard
    library are taken as given. *)
Record Codec := mkCodec {
  png_save : Image → bytes;
  png_open : bytes → option Image;
  b64encode : bytes → string;
  b64decode : string → option bytes
}.

(** [Image.open(io.BytesIO(b))] *)
Definition open (codec : Codec) (b : bytes) : M Image :=
  emit EvImageOpen;;
  match png_open codec b with
  | Some im => mret im
  | None => raise UnidentifiedImageError
  end.

(** [Image.new(size=(w, h), mode=mode)]: every pixel 0. *)
Definition new (w h : Z) (mode : string) : M Image :=
  emit (EvImageNew w h);;
  if bool_decide (w < 0 ∨ h < 0) then raise (ValueError Negative_size)
  else mret (mkImage mode w h (replicate (Z.to_nat h) (replicate (Z.to_nat w) 0))).

(** [dest.paste(src, box=(x0, y0, x1, y1))] for images of one mode and no
    mask: the box must have the size of [src]; the part of the box that lies
    in [dest] is overwritten, the rest is clipped away. *)
Definition paste (dest src : Image) (box : Z * Z * Z * Z) : M Image :=
  let '(x0, y0, x1, y1) := box in
  emit EvPaste;;
  if bool_decide (x1 - x0 = width src ∧ y1 - y0 = height src) then
    mret (mkImage (mode dest) (width dest) (height dest)
      (imap (λ j row,
         imap (λ i v,
           let x := Z.of_nat i in
           let y := Z.of_nat j in
           if bool_decide (x0 ≤ x < x1 ∧ y0 ≤ y < y1)
           then default v (getpixel src (x - x0) (y - y0))
           else v) row) (data dest)))
  else raise (ValueError Images_do_not_match).

(** [im.point(f)] on a single-band image. *)
Definition point (f : Z → Z) (im : Image) : M Image :=
  emit EvPoint;;
  mret (mkImage (mode im) (width im) (height im) ((λ row : list Z, f <$> row) <$> data im)).

(** [im.convert("1")] from mode "L". PIL dithers by error diffusion, which
    on an image whose pixels are all 0 or 255 carries no error and leaves
    each pixel at the level it has; pixel by pixel that is the comparison
    with 128 written here. *)
Definition to_two_levels (v : Z) : Z := if bool_decide (128 < v) then 255 else 0.

Definition convert (new_mode : string) (im : Image) : M Image :=
  emit (EvConvert new_mode);;
  mret (mkImage new_mode (width im) (height im)
          ((λ row : list Z, to_two_levels <$> row) <$> data im)).

(** [im.save(f, format="PNG")] followed by reading [f] back. *)
Definition save (codec : Codec) (im : Image) : M bytes :=
  emit EvSave;; mret (png_save codec im).

End PIL.

(** ** The database session and [schemas.Image] *)

Module schemas.
Record Image := mkImage {
  uid : string;
  height : Z;
  width : Z;
  frame : option Z
}.
End schemas.

(** The parsed GeoJSON of a polygon: [env["coordinates"]] is a list of rings,
    a ring a list of points, a point a list of numbers. *)
Record GeoJSON := mkGeoJSON {
  coordinates : list (list (list Z))
}.

(** What the database answers to the two requests of mask reconstruction:
    [json.loads] of the envelope's GeoJSON, and the PNG bytes of the raster. *)
Record Session := mkSession {
  envelope_geojson : RasterElement → GeoJSON;
  as_png : RasterElement → bytes
}.

(** [pt[i]] *)
Definition getitem (pt : list Z) (i : nat) : M Z :=
  match pt !! i with
  | Some v => mret v
  | None => raise IndexError
  end.

(** [min(xs)] and [max(xs)] *)
Definition py_min (xs : list Z) : M Z :=
  match xs with
  | [] => raise (ValueError Empty_sequence)
  | x :: xs' => mret (foldl Z.min x xs')
  end.

Definition py_max (xs : list Z) : M Z :=
  match xs with
  | [] => raise (ValueError Empty_sequence)
  | x :: xs' => mret (foldl Z.max x xs')
  end.

Definition _get_bounding_box_of_raster (db : Session) (raster : RasterElement)
    : M (Z * Z * Z * Z) :=
  emit (EvDbScalar (Req_AsGeoJSON_Envelope raster));;
  let env := envelope_geojson db raster in
  assert_ Assert_single_ring (bool_decide (length (coordinates env) = 1%nat));;
  ring ← match coordinates env with
          | ring :: _ => mret ring
          | [] => raise IndexError
          end;
  xs ← mapM (λ pt, getitem pt 0) ring;
  ys ← mapM (λ pt, getitem pt 1) ring;
  x_min ← py_min xs;
  y_min ← py_min ys;
  x_max ← py_max xs;
  y_max ← py_max ys;
  mret (x_min, y_min, x_max, y_max).

(** The function passed to [point]: [lambda x: 255 if x == 1 else 0]. *)
Definition sentinel_to_255 (x : Z) : Z := if bool_decide (x = 1) then 255 else 0.

Definition _raster_to_png_b64 (codec : PIL.Codec) (db : Session)
    (raster : RasterElement) (image : schemas.Image) : M string :=
  enveloping_box ← _get_bounding_box_of_raster db raster;
  emit (EvDbScalar (Req_AsPNG raster));;
  raster ← PIL.open codec (as_png db raster);
  assert_ Assert_mode_L (bool_decide (PIL.mode raster = "L"%string));;
  ret ← PIL.new (schemas.width image) (schemas.height image) (PIL.mode raster);
  ret ← PIL.paste ret raster enveloping_box;
  ret ← PIL.point sentinel_to_255 ret;
  ret ← PIL.convert "1" ret;
  mask_bytes ← PIL.save codec ret;
  mret (PIL.b64encode codec mask_bytes).

(** ** Vocabulary of the statements about the area filters *)

(** The two kinds of entity an area filter is built for. *)
Inductive EntityKind := Detection | Segmentation.

Definition area_filter (entity_kind : EntityKind)
    : Select → Table → option Task → option Q → option Q → M Select :=
  match entity_kind with
  | Detection => _filter_object_detections_by_area
  | Segmentation => _filter_instance_segmentations_by_area
  end.

(** The error the detection filter raises for a task it has no area function
    for; the design calls it [UnsupportedAreaTask]. *)
Definition UnsupportedAreaTask (got : option Task) : exn :=
  ValueError (Expected_task_for_area_computation got).

(** The failure of the mode assertion; the design calls it [MaskFormatError]. *)
Definition MaskFormatError : exn := AssertionError Assert_mode_L.

(** Task kinds for which the design defines an area, per entity kind:
    bounding-box and polygon detection for both, and for segmentations also
    "no detection task" and instance segmentation (pixel count). *)
Definition has_area_semantics (entity_kind : EntityKind)
    (task : option Task) : bool :=
  match entity_kind, task with
  | _, Some BBOX_OBJECT_DETECTION => true
  | _, Some POLY_OBJECT_DETECTION => true
  | Segmentation, None => true
  | Segmentation, Some INSTANCE_SEGMENTATION => true
  | _, _ => false
  end.

(** The area of a segmentation's shape under a task: envelope area for
    bounding-box detection, area of the convex hull of the boundary for polygon
    detection, pixel count otherwise. *)
Definition segmentation_area (task : option Task) (shape : sqlexpr) : sqlexpr :=
  match task with
  | Some BBOX_OBJECT_DETECTION => ST_Area (ST_Envelope shape)
  | Some POLY_OBJECT_DETECTION => ST_Area (ST_ConvexHull (ST_Boundary (ST_Polygon shape)))
  | _ => ST_Count shape
  end.

(** The area of a detection's boundary under a task: envelope area for
    bounding-box detection, the area itself for polygon detection, none
    otherwise. *)
Definition detection_area (task : option Task) (boundary : sqlexpr)
    : option sqlexpr :=
  match task with
  | Some BBOX_OBJECT_DETECTION => Some (ST_Area (ST_Envelope boundary))
  | Some POLY_OBJECT_DETECTION => Some (ST_Area boundary)
  | _ => None
  end.

(** The criteria [area >= min_area] and [area <= max_area], in the order the
    filters add them. *)
Definition area_criteria (area : sqlexpr) (min_area max_area : option Q)
    : list sqlexpr :=
  match min_area with Some lo => [SqlGe area (Float lo)] | None => [] end ++
  match max_area with Some hi => [SqlLe area (Float hi)] | None => [] end.

(** A statement with further criteria conjoined. *)
Definition add_criteria (stmt : Select) (crits : list sqlexpr) : Select :=
  mkSelect (sel_entity stmt) (sel_joins stmt) (sel_where stmt ++ crits).

(** The statements the four builders hand to the area filters. *)
Definition gt_segmentations_base (dataset_name : string) : Select :=
  mkSelect models.LabeledGroundTruthSegmentation
    [models.GroundTruthSegmentation; models.Image; models.Dataset]
    [and_ [ Column models.GroundTruthSegmentation "is_instance";
            SqlEq (Column models.Dataset "name") (Str dataset_name) ]].

Definition gt_detections_base (dataset_name : string) (task : Task) : Select :=
  mkSelect models.LabeledGroundTruthDetection
    [models.GroundTruthDetection; models.Image; models.Dataset]
    [and_ [ SqlEq (Column models.Dataset "name") (Str dataset_name);
            SqlEq (Column models.GroundTruthDetection "is_bbox")
                  (Bool (bool_decide (task = BBOX_OBJECT_DETECTION))) ]].

Definition pred_segmentations_base (model_name dataset_name : string) : Select :=
  mkSelect models.LabeledPredictedSegmentation
    [models.PredictedSegmentation; models.Image; models.Model; models.Dataset]
    [and_ [ SqlEq (Column models.Model "name") (Str model_name);
            SqlEq (Column models.Dataset "name") (Str dataset_name);
            Column models.PredictedSegmentation "is_instance" ]].

Definition pred_detections_base (model_name dataset_name : string)
    (task : Task) : Select :=
  mkSelect models.LabeledPredictedDetection
    [models.PredictedDetection; models.Image; models.Model; models.Dataset]
    [and_ [ SqlEq (Column models.Model "name") (Str model_name);
            SqlEq (Column models.Dataset "name") (Str dataset_name);
            SqlEq (Column models.PredictedDetection "is_bbox")
                  (Bool (bool_decide (task = BBOX_OBJECT_DETECTION))) ]].

(** The events of building a base statement: [select], the [join]s, the
    [where]. *)
Definition base_events (stmt : Select) : list event :=
  EvSelect (sel_entity stmt) :: (EvJoin <$> sel_joins stmt) ++ (EvWhere <$> sel_where stmt).

(** When the database evaluates an area criterion on a row, [area_value]
    being the number it computes for each area expression on that row. *)
Definition holds (area_value : sqlexpr → Q) (crit : sqlexpr) : Prop :=
  match crit with
  | SqlGe a (Float q) => (q <= area_value a)%Q
  | SqlLe a (Float q) => (area_value a <= q)%Q
  | _ => True
  end.


(** ** Labels of an image *)

(** The ORM objects reached from a [models.Image] when its labels are
    collected, each with the attributes that [_read.py] reads from it. *)
Module orm.

Record Label := mkLabel {
  id : Z;
  key : string;
  value : string
}.

Record LabeledGroundTruthDetection := mkLabeledGroundTruthDetection {
  detection_label : Label                      (* labeled_det.label *)
}.

Record GroundTruthDetection := mkGroundTruthDetection {
  labeled_ground_truth_detections : list LabeledGroundTruthDetection
}.

Record GroundTruthClassification := mkGroundTruthClassification {
  classification_label : Label                 (* clf.label *)
}.

Record LabeledGroundTruthSegmentation := mkLabeledGroundTruthSegmentation {
  segmentation_label : Label                   (* labeled_seg.label *)
}.

Record GroundTruthSegmentation := mkGroundTruthSegmentation {
  labeled_ground_truth_segmentations : list LabeledGroundTruthSegmentation
}.

Record Image := mkImage {
  ground_truth_detections : list GroundTruthDetection;
  ground_truth_classifications : list GroundTruthClassification;
  ground_truth_segmentations : list GroundTruthSegmentation
}.

End orm.

(** [ret.add(x)] on a set of integers. *)
Definition set_add (x : Z) (ret : gset Z) : gset Z := {[ x ]} ∪ ret.

Definition _get_unique_label_ids_in_image (image : orm.Image) : gset Z :=
  let ret : gset Z := ∅ in
  let ret :=
    foldl (λ ret det,
      foldl (λ ret labeled_det,
          set_add (orm.id (orm.detection_label labeled_det)) ret)
        ret (orm.labeled_ground_truth_detections det))
      ret (orm.ground_truth_detections image) in
  let ret :=
    foldl (λ ret clf, set_add (orm.id (orm.classification_label clf)) ret)
      ret (orm.ground_truth_classifications image) in
  let ret :=
    foldl (λ ret seg,
      foldl (λ ret labeled_seg,
          set_add (orm.id (orm.segmentation_label labeled_seg)) ret)
        ret (orm.labeled_ground_truth_segmentations seg))
      ret (orm.ground_truth_segmentations image) in
  ret.

(** Every label object attached to the image, one entry per attachment:
    those of the detections, then of the classifications, then of the
    segmentations. *)
Definition attached_labels (image : orm.Image) : list orm.Label :=
  (det ← orm.ground_truth_detections image;
     orm.detection_label <$> orm.labeled_ground_truth_detections det) ++
  (orm.classification_label <$> orm.ground_truth_classifications image) ++
  (seg ← orm.ground_truth_segmentations image;
     orm.segmentation_label <$> orm.labeled_ground_truth_segmentations seg).

(** The (key, value) pair a label stands for. *)
Definition key_value (l : orm.Label) : string * string :=
  (orm.key l, orm.value l).

(** The label table holds one row per (key, value) pair: among the labels
    of the image, equal ids and equal pairs go together. *)
Definition ids_name_pairs (image : orm.Image) : Prop :=
  ∀ l1 l2, l1 ∈ attached_labels image → l2 ∈ attached_labels image →
    (orm.id l1 = orm.id l2 ↔ key_value l1 = key_value l2).

(** An image with two detections that share the label (car, present) and
    one classification with another label. *)
Definition car_present : orm.Label := orm.mkLabel 1 "car" "present".
Definition weather_sunny : orm.Label := orm.mkLabel 2 "weather" "sunny".

Definition two_cars_one_classification : orm.Image :=
  orm.mkImage
    [ orm.mkGroundTruthDetection [orm.mkLabeledGroundTruthDetection car_present];
      orm.mkGroundTruthDetection [orm.mkLabeledGroundTruthDetection car_present] ]
    [ orm.mkGroundTruthClassification weather_sunny ]
    [].

(** ** Vocabulary of the statements about mask reconstruction *)

(** The value of the reconstructed mask at [(x, y)], in terms of the patch
    and its enveloping box: full intensity where the box covers the pixel and
    the patch holds the foreground value 1 there, and 0 elsewhere. *)
Definition mask_pixel (patch : PIL.Image) (box : Z * Z * Z * Z) (x y : Z) : Z :=
  let '(x0, y0, x1, y1) := box in
  if bool_decide (x0 ≤ x < x1 ∧ y0 ≤ y < y1 ∧
                  PIL.getpixel patch (x - x0) (y - y0) = Some 1)
  then 255 else 0.

(** The events of a reconstruction that runs to its end. *)
Definition reconstruction_events (raster : RasterElement) (image : schemas.Image)
    : list event :=
  [ EvDbScalar (Req_AsGeoJSON_Envelope raster);
    EvDbScalar (Req_AsPNG raster);
    EvImageOpen;
    EvImageNew (schemas.width image) (schemas.height image);
    EvPaste; EvPoint; EvConvert "1"; EvSave ].

(** Decoding what [_raster_to_png_b64] returns back to a bitmap. *)
Definition decode_mask (codec : PIL.Codec) (s : string) : option PIL.Image :=
  b ← PIL.b64decode codec s; PIL.png_open codec b.

(** A well-formed two-level image: mode "1", rows and columns as declared,
    every pixel 0 or 255. *)
Definition two_level (im : PIL.Image) : Prop :=
  PIL.mode im = "1"%string ∧
  length (PIL.data im) = Z.to_nat (PIL.height im) ∧
  Forall (λ row, length row = Z.to_nat (PIL.width im) ∧
                 Forall (λ v, v = 0 ∨ v = 255) row) (PIL.data im).

(** The decoders undo the encoders on the image [im]. *)
Definition lossless_on (codec : PIL.Codec) (im : PIL.Image) : Prop :=
  PIL.b64decode codec (PIL.b64encode codec (PIL.png_save codec im)) =
    Some (PIL.png_save codec im) ∧
  PIL.png_open codec (PIL.png_save codec im) = Some im.

(** A computation that performs no event. *)
Definition silent {A} (m : M A) : Prop := log_of m = [].

(** Width and height of a box [(x0, y0, x1, y1)]. *)
Definition box_size (box : Z * Z * Z * Z) : Z * Z :=
  let '(x0, y0, x1, y1) := box in (x1 - x0, y1 - y0).

(** The box covers the pixel [(x, y)]. *)
Definition in_box (box : Z * Z * Z * Z) (x y : Z) : Prop :=
  let '(x0, y0, x1, y1) := box in x0 ≤ x < x1 ∧ y0 ≤ y < y1.

(** The envelope invariant of the design:
    [0 ≤ x_min ≤ x_max ≤ image.width] and [0 ≤ y_min ≤ y_max ≤ image.height]. *)
Definition envelope_inside (box : Z * Z * Z * Z) (image : schemas.Image) : Prop :=
  let '(x_min, y_min, x_max, y_max) := box in
  0 ≤ x_min ≤ x_max ∧ x_max ≤ schemas.width image ∧
  0 ≤ y_min ≤ y_max ∧ y_max ≤ schemas.height image.

(** ** A stand-in codec and a stored mask for closed examples *)

(** An uncompressed dump in place of PNG (the mode string, the size, one byte
    per pixel) and the byte string itself in place of base64. It is exact on
    images under 256 pixels a side with pixel values under 256. *)
Module raw.

Definition byte_of_Z (z : Z) : Byte.byte :=
  default Byte.x00 (Byte.of_N (Z.to_N z)).

Definition Z_of_byte (b : Byte.byte) : Z := Z.of_N (Byte.to_N b).

Definition save (im : PIL.Image) : bytes :=
  byte_of_Z (Z.of_nat (String.length (PIL.mode im))) ::
  list_byte_of_string (PIL.mode im) ++
  [byte_of_Z (PIL.width im); byte_of_Z (PIL.height im)] ++
  (byte_of_Z <$> concat (PIL.data im)).

Definition open (b : bytes) : option PIL.Image :=
  match b with
  | [] => None
  | n :: rest =>
      let k := Z.to_nat (Z_of_byte n) in
      match drop k rest with
      | w :: h :: pixels =>
          let w := Z_of_byte w in
          let h := Z_of_byte h in
          Some (PIL.mkImage (string_of_list_byte (take k rest)) w h
                  (reshape (replicate (Z.to_nat h) (Z.to_nat w))
                     (Z_of_byte <$> pixels)))
      | _ => None
      end
  end.

Definition codec : PIL.Codec :=
  PIL.mkCodec save open string_of_list_byte (λ s, Some (list_byte_of_string s)).

End raw.

(** A 2 × 2 patch stored at (2, 2) of a 5 × 5 image, its foreground being
    every pixel but the top right one. *)
Definition corner_patch : PIL.Image :=
  PIL.mkImage "L" 2 2 [[1; 0]; [1; 1]].

(** The same pixels decoded as three-band colour. *)
Definition colour_patch : PIL.Image :=
  PIL.mkImage "RGB" 2 2 [[1; 0]; [1; 1]].

(** The closed ring of an axis-aligned rectangle, as the envelope of a
    raster is reported. *)
Definition rectangle (x0 y0 x1 y1 : Z) : GeoJSON :=
  mkGeoJSON [[ [x0; y0]; [x0; y1]; [x1; y1]; [x1; y0]; [x0; y0] ]].

Definition patch_at (x0 y0 : Z) (patch : PIL.Image) : Session :=
  mkSession
    (λ _, rectangle x0 y0 (x0 + PIL.width patch) (y0 + PIL.height patch))
    (λ _, raw.save patch).

Definition five_by_five : schemas.Image := schemas.mkImage "img1" 5 5 None.

(** ** Vocabulary of the further statements about the area filters *)

(** The area expression a filter compares, when the task has one for the
    kind of entity. *)
Definition filter_area (entity_kind : EntityKind) (task : option Task)
    (table : Table) : option sqlexpr :=
  match entity_kind with
  | Detection => detection_area task (boundary table)
  | Segmentation => Some (segmentation_area task (shape table))
  end.

(** How many of the two bounds are given. *)
Definition bounds_given (min_area max_area : option Q) : nat :=
  (if is_None min_area then 0 else 1) + (if is_None max_area then 0 else 1).

(** The area value lies within the bounds that are given. *)
Definition within_bounds (min_area max_area : option Q) (a : Q) : Prop :=
  (∀ lo, min_area = Some lo → (lo <= a)%Q) ∧
  (∀ hi, max_area = Some hi → (a <= hi)%Q).

(** A row of the database seen through the criteria of a statement:
    [row_value] is the number the database computes on the row for an
    expression, [row_truth] what it finds for a criterion that is not a
    comparison with a bound. *)
Record row_view := mkRowView {
  row_value : sqlexpr → Q;
  row_truth : sqlexpr → Prop
}.

(** The criterion holds on the row. *)
Definition satisfied (row : row_view) (crit : sqlexpr) : Prop :=
  match crit with
  | SqlGe a (Float q) => (q <= row_value row a)%Q
  | SqlLe a (Float q) => (row_value row a <= q)%Q
  | _ => row_truth row crit
  end.

(** The row is selected by the statement: all its criteria hold. *)
Definition selects (stmt : Select) (row : row_view) : Prop :=
  Forall (satisfied row) (sel_where stmt).

(** ** Envelopes for closed examples *)

(** A database that answers every request with the GeoJSON [env] and with
    the bytes of [patch]. *)
Definition answering (env : GeoJSON) (patch : PIL.Image) : Session :=
  mkSession (λ _, env) (λ _, raw.save patch).

(** A triangle, a polygon with a hole (two rings), and a ring with a point
    that has lost its second coordinate. *)
Definition triangle : GeoJSON :=
  mkGeoJSON [[ [1; 5]; [4; 2]; [3; 7]; [1; 5] ]].

Definition with_hole : GeoJSON :=
  mkGeoJSON [ [ [0; 0]; [0; 4]; [4; 4]; [4; 0]; [0; 0] ];
              [ [1; 1]; [1; 2]; [2; 2]; [2; 1]; [1; 1] ] ].

Definition short_point : GeoJSON :=
  mkGeoJSON [[ [1; 5]; [4]; [3; 7]; [1; 5] ]].

(** ** Task types present in a dataset or for a model *)

#[global] Instance Task_countable : Countable Task.
Proof.
  refine (inj_countable'
    (λ t, match t with
          | BBOX_OBJECT_DETECTION => 0%nat
          | POLY_OBJECT_DETECTION => 1%nat
          | INSTANCE_SEGMENTATION => 2%nat
          | SEMANTIC_SEGMENTATION => 3%nat
          | IMAGE_CLASSIFICATION => 4%nat
          end)
    (λ n, match n with
          | 0%nat => BBOX_OBJECT_DETECTION
          | 1%nat => POLY_OBJECT_DETECTION
          | 2%nat => INSTANCE_SEGMENTATION
          | 3%nat => SEMANTIC_SEGMENTATION
          | _ => IMAGE_CLASSIFICATION
          end) _).
  by intros [].
Defined.

(** The stored data as the existence queries see it: whether a statement
    selects any row. *)
Record Stored := mkStored {
  has_rows : Select → bool
}.

(** [db.query(stmt.exists()).scalar()] *)
Definition exists_scalar (db : Stored) (stmt : Select) : M bool :=
  mret (has_rows db stmt).

(** [for x in xs: body], the body updating the state [s]. *)
Fixpoint for_ {A S} (xs : list A) (body : A → S → M S) (s : S) : M S :=
  match xs with
  | [] => mret s
  | x :: xs => s ← body x s; for_ xs body s
  end.

Definition get_dataset_task_types (db : Stored) (dataset_name : string)
    : M (gset Task) :=
  let ret : gset Task := ∅ in
  stmt ← _instance_segmentations_in_dataset_statement dataset_name
           None None None;
  found ← exists_scalar db stmt;
  let ret := if (found : bool) then {[ INSTANCE_SEGMENTATION ]} ∪ ret else ret in
  ret ← for_ (A:=Task) [BBOX_OBJECT_DETECTION; POLY_OBJECT_DETECTION]
         (λ task (ret : gset Task),
           stmt ← _object_detections_in_dataset_statement dataset_name task
                    None None None;
           found ← exists_scalar db stmt;
           mret (if (found : bool) then {[ task ]} ∪ ret else ret)) ret;
  mret ret.

Definition get_model_task_types (db : Stored) (model_name dataset_name : string)
    : M (gset Task) :=
  let ret : gset Task := ∅ in
  stmt ← _model_instance_segmentation_preds_statement model_name dataset_name
           None None None;
  found ← exists_scalar db stmt;
  let ret := if (found : bool) then {[ INSTANCE_SEGMENTATION ]} ∪ ret else ret in
  ret ← for_ (A:=Task) [BBOX_OBJECT_DETECTION; POLY_OBJECT_DETECTION]
         (λ task (ret : gset Task),
           stmt ← _model_object_detection_preds_statement model_name
                    dataset_name task None None None;
           found ← exists_scalar db stmt;
           mret (if (found : bool) then {[ task ]} ∪ ret else ret)) ret;
  mret ret.

(** ** Stored objects and look-ups *)

(** The exceptions of [velour_api.exceptions] that the look-ups raise. *)
Module exceptions.
Inductive error :=
| DatasetDoesNotExistError (dataset_name : string)
| ModelDoesNotExistError (model_name : string)
| ImageDoesNotExistError (uid dataset_name : string).
End exceptions.

(** What a function of the data-access layer can fail with: an exception of
    the computations above, a look-up that finds nothing, the assertion of
    [_boundary_points_from_detection], or an attribute read from [None]. *)
Inductive failure :=
| Raised (e : exn)
| Missing (e : exceptions.error)
| BoundaryAssertionError         (* assert len(coords) == 1 *)
| AttributeError.                (* an attribute read from None *)

(** A computation of the data-access layer. *)
Definition R (A : Type) : Type := list event * (failure + A).

#[global] Instance R_ret : MRet R := λ A a, ([], inr a).
#[global] Instance R_bind : MBind R := λ A B f m,
  match m with
  | (log, inl e) => (log, inl e)
  | (log, inr a) => let '(log', r) := f a in (log ++ log', r)
  end.

Definition fail {A} (e : failure) : R A := ([], inl e).

(** Running one of the computations above inside the data-access layer. *)
Definition lift {A} (m : M A) : R A :=
  match m with
  | (log, inl e) => (log, inl (Raised e))
  | (log, inr a) => (log, inr a)
  end.

Definition result {A} (m : R A) : failure + A := snd m.

(** The ORM objects with the attributes that [_read.py] reads from them. A
    relationship ([dset.images], [image.ground_truth_detections], ...) is
    the list of objects it yields; [boundary_geojson] is what the database
    answers, parsed, when asked for the GeoJSON of the detection's boundary,
    its coordinates taken as pixel coordinates. *)
Module stored.

Record GroundTruthDetection := mkGroundTruthDetection {
  boundary_geojson : GeoJSON;
  is_bbox : bool;
  labeled_ground_truth_detections : list orm.LabeledGroundTruthDetection
}.

Record GroundTruthSegmentation := mkGroundTruthSegmentation {
  image_id : Z;
  is_instance : bool;
  shape : RasterElement;
  labeled_ground_truth_segmentations : list orm.LabeledGroundTruthSegmentation
}.

Record Image := mkImage {
  id : Z;
  uid : string;
  dataset_id : Z;
  height : Z;
  width : Z;
  frame : option Z;
  ground_truth_detections : list GroundTruthDetection;
  ground_truth_classifications : list orm.GroundTruthClassification;
  ground_truth_segmentations : list GroundTruthSegmentation
}.

Record Dataset := mkDataset {
  dataset_key : Z;                 (* Dataset.id *)
  dataset_name : string;           (* Dataset.name *)
  draft : bool;
  images : list Image
}.

Record Model := mkModel {
  model_key : Z;                   (* Model.id *)
  model_name : string              (* Model.name *)
}.

Record APMetric := mkAPMetric {
  tablename : string;              (* m.__tablename__ *)
  iou : Q;
  metric_value : Q;                (* APMetric.value *)
  metric_label : orm.Label         (* APMetric.label *)
}.

Record MetricParameters := mkMetricParameters {
  metric_parameters_key : Z;       (* MetricParameters.id *)
  model : Model;
  dataset : Dataset;
  model_pred_task_type : Task;
  dataset_gt_task_type : Task;
  ap_metrics : list APMetric
}.

End stored.

(** The tables the look-ups read. *)
Record Database := mkDatabase {
  table_dataset : list stored.Dataset;
  table_model : list stored.Model;
  table_image : list stored.Image;
  table_label : list orm.Label;
  table_segmentation : list stored.GroundTruthSegmentation;
  table_metric_parameters : list stored.MetricParameters
}.

(** The image object as [_get_unique_label_ids_in_image] walks it. *)
Definition walked (image : stored.Image) : orm.Image :=
  orm.mkImage
    ((λ det, orm.mkGroundTruthDetection
               (stored.labeled_ground_truth_detections det))
       <$> stored.ground_truth_detections image)
    (stored.ground_truth_classifications image)
    ((λ seg, orm.mkGroundTruthSegmentation
               (stored.labeled_ground_truth_segmentations seg))
       <$> stored.ground_truth_segmentations image).

(** [db.scalar(select(...).where(...))]: the first row that meets the
    criteria, or [None]. *)
Definition scalar_where {A} (criteria : A → bool) (table : list A) : option A :=
  List.find criteria table.

(** [db.scalars(select(...).where(...)).all()] *)
Definition scalars_where {A} (criteria : A → bool) (table : list A) : list A :=
  List.filter criteria table.

Definition get_dataset (db : Database) (dataset_name : string)
    : R stored.Dataset :=
  match scalar_where (λ d, bool_decide (stored.dataset_name d = dataset_name))
          (table_dataset db) with
  | None => fail (Missing (exceptions.DatasetDoesNotExistError dataset_name))
  | Some ret => mret ret
  end.

Definition get_model (db : Database) (model_name : string) : R stored.Model :=
  match scalar_where (λ m, bool_decide (stored.model_name m = model_name))
          (table_model db) with
  | None => fail (Missing (exceptions.ModelDoesNotExistError model_name))
  | Some ret => mret ret
  end.

(** The image table joined with the dataset table on
    [Image.dataset_id == Dataset.id]. *)
Definition get_image (db : Database) (uid dataset_name : string)
    : R stored.Image :=
  match scalar_where
          (λ image,
             bool_decide (stored.uid image = uid) &&
             existsb (λ d,
                 bool_decide (stored.dataset_id image = stored.dataset_key d) &&
                 bool_decide (stored.dataset_name d = dataset_name))
               (table_dataset db))
          (table_image db) with
  | None => fail (Missing (exceptions.ImageDoesNotExistError uid dataset_name))
  | Some ret => mret ret
  end.

Definition get_labels_in_dataset (db : Database) (dataset_name : string)
    : R (list orm.Label) :=
  dset ← get_dataset db dataset_name;
  let unique_ids : gset Z := ∅ in
  let unique_ids :=
    foldl (λ unique_ids image,
             _get_unique_label_ids_in_image (walked image) ∪ unique_ids)
      unique_ids (stored.images dset) in
  mret (scalars_where (λ label, bool_decide (orm.id label ∈ unique_ids))
          (table_label db)).

(** The box encloses the points, which are not none and have two
    coordinates each, and each of its bounds is reached by one of them. *)
Definition encloses_tightly (box : Z * Z * Z * Z) (points : list (list Z))
    : Prop :=
  let '(x_min, y_min, x_max, y_max) := box in
  points ≠ [] ∧
  (∀ pt, pt ∈ points →
     ∃ x y, pt !! 0%nat = Some x ∧ pt !! 1%nat = Some y ∧
            x_min ≤ x ≤ x_max ∧ y_min ≤ y ≤ y_max) ∧
  (∃ pt, pt ∈ points ∧ pt !! 0%nat = Some x_min) ∧
  (∃ pt, pt ∈ points ∧ pt !! 1%nat = Some y_min) ∧
  (∃ pt, pt ∈ points ∧ pt !! 0%nat = Some x_max) ∧
  (∃ pt, pt ∈ points ∧ pt !! 1%nat = Some y_max).

(** ** Annotations of an image and metrics, as returned *)

(** The objects of [velour_api.schemas] that the read functions build, with
    the fields they are given; a field that is not given is [None]. What
    these classes may check when they are built is not part of [_read.py]. *)
Module returned.

Record Label := mkLabel {
  key : string;
  value : string
}.

Record GroundTruthDetection := mkGroundTruthDetection {
  bbox : option (Z * Z * Z * Z);
  boundary : option (list (list Z));
  detection_image : schemas.Image;
  detection_labels : list Label
}.

Record GroundTruthSegmentation := mkGroundTruthSegmentation {
  shape : string;
  segmentation_image : schemas.Image;
  segmentation_labels : list Label;
  is_instance : bool
}.

Record MetricParameters := mkMetricParameters {
  model_name : string;
  dataset_name : string;
  model_pred_task_type : Task;
  dataset_gt_task_type : Task
}.

Record APMetric := mkAPMetric {
  iou : Q;
  metric_value : Q;
  metric_label : Label
}.

Record MetricResponse := mkMetricResponse {
  metric_name : string;
  parameters : MetricParameters;
  metric : APMetric
}.

End returned.

Definition _db_label_to_schemas_label (label : orm.Label) : returned.Label :=
  returned.mkLabel (orm.key label) (orm.value label).

(** The ring of the detection's boundary, each coordinate list as a tuple. *)
Definition _boundary_points_from_detection
    (detection : stored.GroundTruthDetection) : R (list (list Z)) :=
  let coords := coordinates (stored.boundary_geojson detection) in
  if bool_decide (length coords = 1%nat) then
    match coords with
    | ring :: _ => mret ring
    | [] => fail (Raised IndexError)
    end
  else fail BoundaryAssertionError.

Definition get_groundtruth_detections_in_image (db : Database)
    (uid dataset_name : string) : R (list returned.GroundTruthDetection) :=
  db_img ← get_image db uid dataset_name;
  let gt_dets := stored.ground_truth_detections db_img in
  let img := schemas.mkImage uid (stored.height db_img) (stored.width db_img)
               (stored.frame db_img) in
  let _single_db_gt_to_pydantic_gt (gt_det : stored.GroundTruthDetection)
      : R returned.GroundTruthDetection :=
    let labels :=
      (λ labeled_gt_det,
         _db_label_to_schemas_label (orm.detection_label labeled_gt_det))
        <$> stored.labeled_ground_truth_detections gt_det in
    boundary ← _boundary_points_from_detection gt_det;
    if stored.is_bbox gt_det then
      xs ← lift (mapM (λ b, getitem b 0) boundary);
      ys ← lift (mapM (λ b, getitem b 1) boundary);
      x_min ← lift (py_min xs);
      y_min ← lift (py_min ys);
      x_max ← lift (py_max xs);
      y_max ← lift (py_max ys);
      mret (returned.mkGroundTruthDetection
              (Some (x_min, y_min, x_max, y_max)) None img labels)
    else
      boundary ← _boundary_points_from_detection gt_det;
      mret (returned.mkGroundTruthDetection None (Some boundary) img labels) in
  mapM _single_db_gt_to_pydantic_gt gt_dets.

(** [session] answers the raster requests of the mask reconstruction, [db]
    holds the tables. *)
Definition get_groundtruth_segmentations_in_image (codec : PIL.Codec)
    (session : Session) (db : Database) (uid dataset_name : string)
    (are_instance : bool) : R (list returned.GroundTruthSegmentation) :=
  db_img ← get_image db uid dataset_name;
  let gt_segs :=
    scalars_where
      (λ seg, bool_decide (stored.image_id seg = stored.id db_img) &&
              bool_decide (stored.is_instance seg = are_instance))
      (table_segmentation db) in
  let img := schemas.mkImage uid (stored.height db_img) (stored.width db_img)
               (stored.frame db_img) in
  mapM (λ gt_seg,
          shape ← lift (_raster_to_png_b64 codec session
                          (stored.shape gt_seg) img);
          mret (returned.mkGroundTruthSegmentation shape img
                  ((λ labeled_gt_seg,
                      _db_label_to_schemas_label
                        (orm.segmentation_label labeled_gt_seg))
                     <$> stored.labeled_ground_truth_segmentations gt_seg)
                  (stored.is_instance gt_seg)))
    gt_segs.

Definition _db_metric_params_to_pydantic_metric_params
    (metric_params : stored.MetricParameters) : returned.MetricParameters :=
  returned.mkMetricParameters
    (stored.model_name (stored.model metric_params))
    (stored.dataset_name (stored.dataset metric_params))
    (stored.model_pred_task_type metric_params)
    (stored.dataset_gt_task_type metric_params).

Definition _db_metric_to_pydantic_metric (metric : stored.APMetric)
    : returned.APMetric :=
  returned.mkAPMetric (stored.iou metric) (stored.metric_value metric)
    (_db_label_to_schemas_label (stored.metric_label metric)).

(** [mp.ap_metrics], where [mp] may be [None]. *)
Definition getattr_ap_metrics (mp : option stored.MetricParameters)
    : R (stored.MetricParameters * list stored.APMetric) :=
  match mp with
  | Some mp => mret (mp, stored.ap_metrics mp)
  | None => fail AttributeError
  end.

Definition get_metrics_from_metric_params
    (metric_params : list (option stored.MetricParameters))
    : R (list returned.MetricResponse) :=
  per_mp ← mapM (λ mp,
              '(mp, metrics) ← getattr_ap_metrics mp;
              mret ((λ m, returned.mkMetricResponse
                            (stored.tablename m)
                            (_db_metric_params_to_pydantic_metric_params mp)
                            (_db_metric_to_pydantic_metric m)) <$> metrics))
            metric_params;
  mret (concat per_mp).

Definition get_metrics_from_metric_params_id (db : Database)
    (metric_params_id : Z) : R (list returned.MetricResponse) :=
  let metric_params :=
    scalar_where
      (λ mp, bool_decide (stored.metric_parameters_key mp = metric_params_id))
      (table_metric_parameters db) in
  get_metrics_from_metric_params [metric_params].

Definition get_model_metrics (db : Database) (model_name : string)
    : R (list returned.MetricResponse) :=
  model ← get_model db model_name;
  let metric_params :=
    scalars_where
      (λ mp, bool_decide (stored.model_key (stored.model mp) =
                          stored.model_key model))
      (table_metric_parameters db) in
  get_metrics_from_metric_params (Some <$> metric_params).

(** ** A small database for closed examples *)

(** Image "img1" of dataset "D1", 5 × 5, with a detection stored as a box
    and the same triangle stored as a polygon, and two segmentations, one
    instance and one semantic. *)
Definition boxed_triangle : stored.GroundTruthDetection :=
  stored.mkGroundTruthDetection triangle true
    [orm.mkLabeledGroundTruthDetection car_present].

Definition polygon_triangle : stored.GroundTruthDetection :=
  stored.mkGroundTruthDetection triangle false
    [orm.mkLabeledGroundTruthDetection car_present].

Definition instance_mask : stored.GroundTruthSegmentation :=
  stored.mkGroundTruthSegmentation 10 true "raster1"
    [orm.mkLabeledGroundTruthSegmentation car_present].

Definition semantic_mask : stored.GroundTruthSegmentation :=
  stored.mkGroundTruthSegmentation 10 false "raster2"
    [orm.mkLabeledGroundTruthSegmentation weather_sunny].

Definition img1 : stored.Image :=
  stored.mkImage 10 "img1" 1 5 5 None
    [boxed_triangle; polygon_triangle] [] [instance_mask; semantic_mask].

Definition D1 : stored.Dataset := stored.mkDataset 1 "D1" false [img1].

Definition M1 : stored.Model := stored.mkModel 7 "M1".

Definition car_metric : stored.APMetric :=
  stored.mkAPMetric "ap_metric" (1 # 2) (3 # 4) car_present.

Definition M1_on_D1 : stored.MetricParameters :=
  stored.mkMetricParameters 3 M1 D1
    BBOX_OBJECT_DETECTION BBOX_OBJECT_DETECTION [car_metric].

Definition small_db : Database :=
  mkDatabase [D1] [M1] [img1] [car_present; weather_sunny]
    [instance_mask; semantic_mask] [M1_on_D1].

(** The response built for the metric [m] of the parameters [mp]. *)
Definition response_of (mp : stored.MetricParameters) (m : stored.APMetric)
    : returned.MetricResponse :=
  returned.mkMetricResponse
    (stored.tablename m)
    (_db_metric_params_to_pydantic_metric_params mp)
    (_db_metric_to_pydantic_metric m).

(** The patch of the examples with its foreground stored as 255. *)
Definition bright_patch : PIL.Image :=
  PIL.mkImage "L" 2 2 [[255; 0]; [255; 255]].

(** * Properties *)

(** ** The area filters *)

Lemma add_criteria_nil stmt : add_criteria stmt [] = stmt.
Proof. destruct stmt; unfold add_criteria; simpl. by rewrite app_nil_r. Qed.

Lemma seg_filter_spec stmt seg_table task min_area max_area :
  _filter_instance_segmentations_by_area stmt seg_table task min_area max_area =
    let crits :=
      area_criteria (segmentation_area task (shape seg_table)) min_area max_area in
    (EvWhere <$> crits, inr (add_criteria stmt crits)).
Proof.
  unfold _filter_instance_segmentations_by_area, segmentation_area.
  destruct stmt as [e j w], min_area, max_area; cbn [is_None andb];
    repeat case_decide; subst; try discriminate;
    try (destruct task as [[]|]; try congruence);
    unfold add_criteria; cbn; rewrite <- ?app_assoc, ?app_nil_r; reflexivity.
Qed.

Lemma det_filter_supported stmt det_table task min_area max_area area :
  detection_area task (boundary det_table) = Some area →
  _filter_object_detections_by_area stmt det_table task min_area max_area =
    let crits := area_criteria area min_area max_area in
    (EvWhere <$> crits, inr (add_criteria stmt crits)).
Proof.
  intros Harea. unfold _filter_object_detections_by_area.
  destruct task as [[]|]; try discriminate Harea;
    injection Harea as <-;
    destruct stmt as [e j w], min_area, max_area; cbn [is_None andb];
    repeat case_decide; try congruence;
    unfold add_criteria; cbn; rewrite <- ?app_assoc, ?app_nil_r; reflexivity.
Qed.

Lemma det_filter_unsupported stmt det_table task min_area max_area :
  task ≠ Some BBOX_OBJECT_DETECTION →
  task ≠ Some POLY_OBJECT_DETECTION →
  is_None min_area && is_None max_area = false →
  _filter_object_detections_by_area stmt det_table task min_area max_area =
    raise (UnsupportedAreaTask task).
Proof.
  intros Hb Hp Hbound. unfold _filter_object_detections_by_area.
  rewrite Hbound. repeat case_decide; done.
Qed.

Lemma bound_present {A} (min_area max_area : option A) :
  is_Some min_area ∨ is_Some max_area →
  is_None min_area && is_None max_area = false.
Proof. intros [[? ->]|[? ->]]; [done|by destruct min_area]. Qed.

(** What the four statement builders compute, in one equation each: the
    events of building the base statement, then those of the filter. *)

Lemma gt_segmentations_statement_spec dataset_name min_area max_area task :
  _instance_segmentations_in_dataset_statement dataset_name min_area max_area task =
    let base := gt_segmentations_base dataset_name in
    let crits := area_criteria
      (segmentation_area task (shape models.GroundTruthSegmentation)) min_area max_area in
    (base_events base ++ (EvWhere <$> crits), inr (add_criteria base crits)).
Proof.
  unfold _instance_segmentations_in_dataset_statement.
  cbn -[_filter_instance_segmentations_by_area].
  rewrite seg_filter_spec. reflexivity.
Qed.

Lemma pred_segmentations_statement_spec model_name dataset_name min_area max_area task :
  _model_instance_segmentation_preds_statement model_name dataset_name
      min_area max_area task =
    let base := pred_segmentations_base model_name dataset_name in
    let crits := area_criteria
      (segmentation_area task (shape models.PredictedSegmentation)) min_area max_area in
    (base_events base ++ (EvWhere <$> crits), inr (add_criteria base crits)).
Proof.
  unfold _model_instance_segmentation_preds_statement.
  cbn -[_filter_instance_segmentations_by_area].
  rewrite seg_filter_spec. reflexivity.
Qed.

Lemma is_detection_task_true task :
  is_detection_task task = true ↔
  task = BBOX_OBJECT_DETECTION ∨ task = POLY_OBJECT_DETECTION.
Proof.
  unfold is_detection_task.
  rewrite bool_decide_eq_true, !elem_of_cons, elem_of_nil. tauto.
Qed.

Lemma gt_detections_statement_spec dataset_name task min_area max_area tfa area :
  is_detection_task task = true →
  detection_area tfa (boundary models.GroundTruthDetection) = Some area →
  _object_detections_in_dataset_statement dataset_name task min_area max_area tfa =
    let base := gt_detections_base dataset_name task in
    let crits := area_criteria area min_area max_area in
    (base_events base ++ (EvWhere <$> crits), inr (add_criteria base crits)).
Proof.
  intros Ht Hfn. unfold _object_detections_in_dataset_statement. rewrite Ht.
  cbn -[_filter_object_detections_by_area].
  rewrite (det_filter_supported _ _ _ _ _ _ Hfn). reflexivity.
Qed.

Lemma pred_detections_statement_spec model_name dataset_name task
    min_area max_area tfa area :
  is_detection_task task = true →
  detection_area tfa (boundary models.PredictedDetection) = Some area →
  _model_object_detection_preds_statement model_name dataset_name task
      min_area max_area tfa =
    let base := pred_detections_base model_name dataset_name task in
    let crits := area_criteria area min_area max_area in
    (base_events base ++ (EvWhere <$> crits), inr (add_criteria base crits)).
Proof.
  intros Ht Hfn. unfold _model_object_detection_preds_statement. rewrite Ht.
  cbn -[_filter_object_detections_by_area].
  rewrite (det_filter_supported _ _ _ _ _ _ Hfn). reflexivity.
Qed.

(** C5: with [min_area] and [max_area] both [None], the detection filter and
    the instance-segmentation filter return the statement they were given,
    for every statement, table and task, and touch nothing on the way. *)
Theorem area_filter_unbounded_identity :
  ∀ (entity_kind : EntityKind) (stmt : Select) (table : Table)
    (task : option Task),
    area_filter entity_kind stmt table task None None = mret stmt.
Proof. intros [] stmt table task; reflexivity. Qed.

(** C6: the area function per task. Detections: bounding-box detection
    compares the area of the envelope of the boundary, polygon detection the
    area of the boundary itself. Instance segmentations: bounding-box
    detection compares the area of the envelope of the shape, polygon
    detection the area of the convex hull of the boundary of the shape's
    polygon, and no task the pixel count of the shape. *)
Theorem task_area_function_mapping :
  ∀ (stmt : Select) (table : Table) (min_area max_area : option Q),
    let filtered entity_kind task area :=
      returns (area_filter entity_kind stmt table task min_area max_area)
              (add_criteria stmt (area_criteria area min_area max_area)) in
    filtered Detection (Some BBOX_OBJECT_DETECTION)
      (ST_Area (ST_Envelope (boundary table))) ∧
    filtered Detection (Some POLY_OBJECT_DETECTION)
      (ST_Area (boundary table)) ∧
    filtered Segmentation (Some BBOX_OBJECT_DETECTION)
      (ST_Area (ST_Envelope (shape table))) ∧
    filtered Segmentation (Some POLY_OBJECT_DETECTION)
      (ST_Area (ST_ConvexHull (ST_Boundary (ST_Polygon (shape table))))) ∧
    filtered Segmentation None
      (ST_Count (shape table)).
Proof.
  intros stmt table min_area max_area filtered. subst filtered.
  unfold returns, area_filter.
  split; [|split; [|split; [|split]]].
  - by rewrite (det_filter_supported _ _ _ _ _
                  (ST_Area (ST_Envelope (boundary table)))).
  - by rewrite (det_filter_supported _ _ _ _ _ (ST_Area (boundary table))).
  - by rewrite seg_filter_spec.
  - by rewrite seg_filter_spec.
  - by rewrite seg_filter_spec.
Qed.

(** C1, as stated, fails: a classification task has no area semantics for
    segmentations, yet the instance-segmentation filter with a lower bound
    returns a statement that compares the pixel count; nothing is raised. *)
Lemma classification_task_counts_pixels :
  let base := gt_segmentations_base "D1" in
  let run := area_filter Segmentation base models.GroundTruthSegmentation
               (Some IMAGE_CLASSIFICATION) (Some 4%Q) None in
  has_area_semantics Segmentation (Some IMAGE_CLASSIFICATION) = false ∧
  returns run
    (add_criteria base
       [SqlGe (ST_Count (shape models.GroundTruthSegmentation)) (Float 4%Q)]) ∧
  ¬ ∃ e, raises run e.
Proof.
  cbn zeta. split; [reflexivity|]. split; [reflexivity|].
  intros [e He]. discriminate He.
Qed.

(** C1, amended: with at least one bound present and a task other than
    bounding-box and polygon detection (no task included), the detection
    filter raises its unsupported-task error before adding any criterion,
    while the instance-segmentation filter raises nothing: its last branch
    compares the pixel count. *)
Theorem unsupported_task_dispatch :
  ∀ (stmt : Select) (table : Table) (task : option Task)
    (min_area max_area : option Q),
    is_Some min_area ∨ is_Some max_area →
    task ≠ Some BBOX_OBJECT_DETECTION →
    task ≠ Some POLY_OBJECT_DETECTION →
    area_filter Detection stmt table task min_area max_area =
      raise (UnsupportedAreaTask task) ∧
    returns (area_filter Segmentation stmt table task min_area max_area)
      (add_criteria stmt
         (area_criteria (ST_Count (shape table)) min_area max_area)).
Proof.
  intros stmt table task min_area max_area Hbound Hb Hp. split.
  - apply det_filter_unsupported; auto using bound_present.
  - unfold returns, area_filter. rewrite seg_filter_spec.
    destruct task as [[]|]; done.
Qed.

(** At a classification task with a lower bound of 4. *)
Lemma unsupported_task_dispatch_witness :
  let base := gt_segmentations_base "D1" in
  area_filter Detection base models.GroundTruthDetection
      (Some IMAGE_CLASSIFICATION) (Some 4%Q) None =
    raise (UnsupportedAreaTask (Some IMAGE_CLASSIFICATION)) ∧
  returns (area_filter Segmentation base models.GroundTruthDetection
             (Some IMAGE_CLASSIFICATION) (Some 4%Q) None)
    (add_criteria base
       (area_criteria (ST_Count (shape models.GroundTruthDetection))
          (Some 4%Q) None)).
Proof.
  apply (unsupported_task_dispatch (gt_segmentations_base "D1")
           models.GroundTruthDetection (Some IMAGE_CLASSIFICATION)
           (Some 4%Q) None).
  - left. exists 4%Q. reflexivity.
  - discriminate.
  - discriminate.
Defined.

(** C2, as stated, fails: with [min_area = 5 > 3 = max_area] the detection
    filter returns a statement carrying both criteria; nothing is raised. *)
Lemma inverted_range_builds_statement :
  let base := gt_detections_base "D1" BBOX_OBJECT_DETECTION in
  let area := ST_Area (ST_Envelope (boundary models.GroundTruthDetection)) in
  let run := _object_detections_in_dataset_statement "D1" BBOX_OBJECT_DETECTION
               (Some 5%Q) (Some 3%Q) (Some BBOX_OBJECT_DETECTION) in
  (3 < 5)%Q ∧
  returns run
    (add_criteria base [SqlGe area (Float 5%Q); SqlLe area (Float 3%Q)]) ∧
  ¬ ∃ e, raises run e.
Proof.
  cbn zeta. split; [reflexivity|]. split; [reflexivity|].
  intros [e He]. discriminate He.
Qed.

(** C2, amended: no builder compares [min_area] with [max_area]. With both
    present and [min_area > max_area], the two instance-segmentation builders
    return, for every task, their base statement with [area >= min_area] and
    [area <= max_area] conjoined, and so do the two detection builders
    whenever they accept their task arguments; no row satisfies both
    criteria. *)
Theorem inverted_range_not_rejected :
  ∀ (lo hi : Q), (hi < lo)%Q →
    let both area := [SqlGe area (Float lo); SqlLe area (Float hi)] in
    (∀ dataset_name task,
       returns (_instance_segmentations_in_dataset_statement dataset_name
                  (Some lo) (Some hi) task)
         (add_criteria (gt_segmentations_base dataset_name)
            (both (segmentation_area task (shape models.GroundTruthSegmentation))))) ∧
    (∀ model_name dataset_name task,
       returns (_model_instance_segmentation_preds_statement model_name
                  dataset_name (Some lo) (Some hi) task)
         (add_criteria (pred_segmentations_base model_name dataset_name)
            (both (segmentation_area task (shape models.PredictedSegmentation))))) ∧
    (∀ dataset_name task tfa area,
       is_detection_task task = true →
       detection_area tfa (boundary models.GroundTruthDetection) = Some area →
       returns (_object_detections_in_dataset_statement dataset_name task
                  (Some lo) (Some hi) tfa)
         (add_criteria (gt_detections_base dataset_name task) (both area))) ∧
    (∀ model_name dataset_name task tfa area,
       is_detection_task task = true →
       detection_area tfa (boundary models.PredictedDetection) = Some area →
       returns (_model_object_detection_preds_statement model_name
                  dataset_name task (Some lo) (Some hi) tfa)
         (add_criteria (pred_detections_base model_name dataset_name task)
            (both area))) ∧
    (∀ area area_value, ¬ Forall (holds area_value) (both area)).
Proof.
  intros lo hi Hinv both. subst both. unfold returns.
  split; [|split; [|split; [|split]]].
  - intros. by rewrite gt_segmentations_statement_spec.
  - intros. by rewrite pred_segmentations_statement_spec.
  - intros ???? Ht Hfn. by rewrite (gt_detections_statement_spec _ _ _ _ _ _ Ht Hfn).
  - intros ????? Ht Hfn. by rewrite (pred_detections_statement_spec _ _ _ _ _ _ _ Ht Hfn).
  - intros area area_value Hall.
    apply Forall_cons in Hall as [Hge Hall].
    apply Forall_cons in Hall as [Hle _]. cbn in Hge, Hle.
    apply (Qlt_irrefl lo).
    eapply Qle_lt_trans; [|exact Hinv]. eapply Qle_trans; eassumption.
Qed.

(** At the range from 5 down to 3. *)
Lemma inverted_range_not_rejected_witness :
  (3 < 5)%Q ∧
  returns (_instance_segmentations_in_dataset_statement "D1"
             (Some 5%Q) (Some 3%Q) None)
    (add_criteria (gt_segmentations_base "D1")
       [SqlGe (ST_Count (shape models.GroundTruthSegmentation)) (Float 5%Q);
        SqlLe (ST_Count (shape models.GroundTruthSegmentation)) (Float 3%Q)]) ∧
  returns (_model_object_detection_preds_statement "M1" "D1"
             POLY_OBJECT_DETECTION (Some 5%Q) (Some 3%Q)
             (Some POLY_OBJECT_DETECTION))
    (add_criteria (pred_detections_base "M1" "D1" POLY_OBJECT_DETECTION)
       [SqlGe (ST_Area (boundary models.PredictedDetection)) (Float 5%Q);
        SqlLe (ST_Area (boundary models.PredictedDetection)) (Float 3%Q)]).
Proof.
  assert (Hinv : (3 < 5)%Q) by reflexivity.
  destruct (inverted_range_not_rejected 5%Q 3%Q Hinv)
    as (Hgt_seg & _ & _ & Hpred_det & _).
  split; [exact Hinv|]. split.
  - exact (Hgt_seg "D1"%string None).
  - exact (Hpred_det "M1"%string "D1"%string POLY_OBJECT_DETECTION
             (Some POLY_OBJECT_DETECTION)
             (ST_Area (boundary models.PredictedDetection)) eq_refl eq_refl).
Defined.

(** C10: for every task other than bounding-box and polygon detection, the
    ground-truth and the predicted object-detection statement builders raise
    a [ValueError] with an empty log, that is before [select] is called,
    whatever the area bounds and the task for area computation are (both
    bounds [None] included). *)
Theorem non_detection_task_rejected :
  ∀ (task : Task),
    task ≠ BBOX_OBJECT_DETECTION → task ≠ POLY_OBJECT_DETECTION →
    ∀ (model_name dataset_name : string) (min_area max_area : option Q)
      (task_for_area_computation : option Task),
      let gt := _object_detections_in_dataset_statement dataset_name task
                  min_area max_area task_for_area_computation in
      let pred := _model_object_detection_preds_statement model_name
                    dataset_name task min_area max_area
                    task_for_area_computation in
      (log_of gt = [] ∧ raises gt (ValueError (Expected_detection_task task))) ∧
      (log_of pred = [] ∧ raises pred (ValueError (Expected_detection_task task))).
Proof.
  intros task Hb Hp model_name dataset_name min_area max_area tfa gt pred.
  subst gt pred.
  unfold _object_detections_in_dataset_statement,
    _model_object_detection_preds_statement.
  assert (Hnot : is_detection_task task = false).
  { apply not_true_is_false. rewrite is_detection_task_true. tauto. }
  rewrite Hnot. cbn. done.
Qed.

(** At the instance-segmentation task with no bounds. *)
Lemma non_detection_task_rejected_witness :
  let gt := _object_detections_in_dataset_statement "D1"
              INSTANCE_SEGMENTATION None None None in
  let pred := _model_object_detection_preds_statement "M1" "D1"
                INSTANCE_SEGMENTATION None None None in
  (log_of gt = [] ∧
   raises gt (ValueError (Expected_detection_task INSTANCE_SEGMENTATION))) ∧
  (log_of pred = [] ∧
   raises pred (ValueError (Expected_detection_task INSTANCE_SEGMENTATION))).
Proof.
  apply (non_detection_task_rejected INSTANCE_SEGMENTATION);
    discriminate.
Defined.

(** ** Labels of an image *)

Section fold_add.
Context {A : Type} (f : A → Z).

Lemma foldl_set_add (l : list A) (ret : gset Z) :
  foldl (λ ret a, set_add (f a) ret) ret l = list_to_set (f <$> l) ∪ ret.
Proof.
  revert ret. induction l as [|a l IH]; intros ret; simpl.
  - set_solver.
  - rewrite IH. unfold set_add. set_solver.
Qed.

Lemma foldl_foldl_set_add {B : Type} (inner : B → list A) (l : list B)
    (ret : gset Z) :
  foldl (λ ret b, foldl (λ ret a, set_add (f a) ret) ret (inner b)) ret l =
    list_to_set (f <$> (b ← l; inner b)) ∪ ret.
Proof.
  revert ret. induction l as [|b l IH]; intros ret; simpl.
  - set_solver.
  - rewrite IH, foldl_set_add, fmap_app, list_to_set_app_L. set_solver.
Qed.

End fold_add.

Lemma unique_label_ids_as_list image :
  _get_unique_label_ids_in_image image =
    list_to_set (orm.id <$> attached_labels image).
Proof.
  unfold _get_unique_label_ids_in_image, attached_labels.
  rewrite (foldl_foldl_set_add (λ ld, orm.id (orm.detection_label ld))).
  rewrite (foldl_set_add (λ clf, orm.id (orm.classification_label clf))).
  rewrite (foldl_foldl_set_add (λ ls, orm.id (orm.segmentation_label ls))).
  apply set_eq. intros i. set_solver.
Qed.

Lemma size_list_to_set_remove_dups (l : list Z) :
  size (list_to_set l : gset Z) = length (remove_dups l).
Proof.
  rewrite <- (size_list_to_set (C:=gset Z) (remove_dups l))
    by apply NoDup_remove_dups.
  f_equal. apply set_eq. intros x.
  by rewrite !elem_of_list_to_set, elem_of_remove_dups.
Qed.

Lemma length_remove_dups_fmap {A B C} `{EqDecision B, EqDecision C}
    (f : A → B) (g : A → C) (l : list A) :
  (∀ a b, a ∈ l → b ∈ l → (f a = f b ↔ g a = g b)) →
  length (remove_dups (f <$> l)) = length (remove_dups (g <$> l)).
Proof.
  induction l as [|a l IH]; intros Hfg; [done|].
  assert (IH' : length (remove_dups (f <$> l)) = length (remove_dups (g <$> l))).
  { apply IH. intros x y Hx Hy. apply Hfg; by right. }
  assert (Hmem : f a ∈ f <$> l ↔ g a ∈ g <$> l).
  { rewrite !list_elem_of_fmap. split; intros (b & Hb & Hin); exists b;
      (split; [|done]); apply (Hfg a b); first [by left | by right | done]. }
  cbn. repeat case_decide; cbn; tauto || lia.
Qed.

(** C9: the set returned for an image holds exactly the ids of the labels
    carried by its detections, its classifications and its segmentations;
    and, ids and (key, value) pairs naming the same labels, its size is the
    number of distinct (key, value) pairs among the attached labels, however
    many objects carry each of them. *)
Theorem unique_labels_union :
  ∀ (image : orm.Image),
    (∀ i : Z,
       i ∈ _get_unique_label_ids_in_image image ↔
         (∃ det labeled_det,
            det ∈ orm.ground_truth_detections image ∧
            labeled_det ∈ orm.labeled_ground_truth_detections det ∧
            orm.id (orm.detection_label labeled_det) = i) ∨
         (∃ clf,
            clf ∈ orm.ground_truth_classifications image ∧
            orm.id (orm.classification_label clf) = i) ∨
         (∃ seg labeled_seg,
            seg ∈ orm.ground_truth_segmentations image ∧
            labeled_seg ∈ orm.labeled_ground_truth_segmentations seg ∧
            orm.id (orm.segmentation_label labeled_seg) = i)) ∧
    (ids_name_pairs image →
       size (_get_unique_label_ids_in_image image) =
         length (remove_dups (key_value <$> attached_labels image))).
Proof.
  intros image. split.
  - intros i. rewrite unique_label_ids_as_list. unfold attached_labels.
    rewrite elem_of_list_to_set, !fmap_app, !elem_of_app.
    rewrite !list_elem_of_fmap.
    setoid_rewrite list_elem_of_bind. setoid_rewrite list_elem_of_fmap.
    naive_solver.
  - intros Hpairs. rewrite unique_label_ids_as_list.
    rewrite size_list_to_set_remove_dups.
    apply length_remove_dups_fmap. exact Hpairs.
Qed.

(** Two detections sharing (car, present) and one classification with
    another label: three attachments, two labels. *)
Lemma unique_labels_union_witness :
  ids_name_pairs two_cars_one_classification ∧
  length (attached_labels two_cars_one_classification) = 3%nat ∧
  size (_get_unique_label_ids_in_image two_cars_one_classification) = 2%nat.
Proof.
  assert (Hpairs : ids_name_pairs two_cars_one_classification).
  { intros l1 l2 H1 H2. cbn in H1, H2.
    rewrite !elem_of_cons, elem_of_nil in H1, H2.
    destruct H1 as [->|[->|[->|[]]]], H2 as [->|[->|[->|[]]]];
      split; intros H; first [reflexivity | discriminate H]. }
  split; [exact Hpairs|]. split; [reflexivity|].
  destruct (unique_labels_union two_cars_one_classification) as [_ Hsize].
  exact (eq_trans (Hsize Hpairs) eq_refl).
Defined.

(** ** Mask reconstruction *)

Lemma log_of_bind {A B} (m : M A) (f : A → M B) :
  log_of (m ≫= f) =
    (log_of m ++ match outcome m with inl _ => [] | inr a => log_of (f a) end)%list.
Proof.
  destruct m as [log [e|a]]; cbn.
  - by rewrite app_nil_r.
  - by destruct (f a).
Qed.

Lemma silent_bind {A B} (m : M A) (f : A → M B) :
  silent m → (∀ a, silent (f a)) → silent (m ≫= f).
Proof.
  unfold silent. intros Hm Hf. rewrite log_of_bind, Hm.
  destruct (outcome m); [done|apply Hf].
Qed.

Lemma silent_mret {A} (a : A) : silent (mret a : M A).
Proof. done. Qed.

Lemma silent_raise {A} (e : exn) : silent (raise e : M A).
Proof. done. Qed.

Lemma silent_assert a b : silent (assert_ a b).
Proof. by destruct b. Qed.

Lemma silent_getitem pt i : silent (getitem pt i).
Proof. unfold getitem. by destruct (pt !! i). Qed.

Lemma silent_py_min xs : silent (py_min xs).
Proof. by destruct xs. Qed.

Lemma silent_py_max xs : silent (py_max xs).
Proof. by destruct xs. Qed.

Lemma silent_mapM {A B} (f : A → M B) (l : list A) :
  (∀ a, silent (f a)) → silent (mapM f l).
Proof.
  intros Hf. induction l as [|a l IH]; [done|]. cbn [mapM].
  apply silent_bind; [apply Hf|]. intros y.
  apply silent_bind; [apply IH|]. intros k. apply silent_mret.
Qed.

Create HintDb silent.
#[local] Hint Resolve silent_mret silent_raise silent_assert silent_getitem
  silent_py_min silent_py_max : silent.

(** The envelope request is the only event of [_get_bounding_box_of_raster],
    whether it returns or raises. *)
Lemma bounding_box_log db raster :
  log_of (_get_bounding_box_of_raster db raster) =
    [EvDbScalar (Req_AsGeoJSON_Envelope raster)].
Proof.
  unfold _get_bounding_box_of_raster.
  rewrite log_of_bind. cbn [emit log_of outcome fst snd app].
  f_equal.
  repeat first
    [ apply silent_bind; [|intros ?]
    | apply silent_mapM; intros ?
    | solve [auto with silent]
    | match goal with |- silent (match ?l with _ => _ end) => destruct l end ].
Qed.

(** Pixels of the images built along the way. *)

Lemma new_spec (w h : Z) (mode : string) :
  0 ≤ w → 0 ≤ h →
  PIL.new w h mode =
    ([EvImageNew w h],
     inr (PIL.mkImage mode w h (replicate (Z.to_nat h) (replicate (Z.to_nat w) 0)))).
Proof.
  intros Hw Hh. unfold PIL.new.
  rewrite bool_decide_eq_false_2 by lia. reflexivity.
Qed.

(** The canvas after the paste: inside the box the pixel of the patch (0 where
    the patch stores none), outside the box still 0. *)
Lemma getpixel_pasted (w h : Z) (mode : string) (patch : PIL.Image)
    (x0 y0 x1 y1 x y : Z) :
  0 ≤ x < w → 0 ≤ y < h →
  PIL.getpixel
    (PIL.mkImage mode w h
       (imap (λ j row,
          imap (λ i v,
            if bool_decide (x0 ≤ Z.of_nat i < x1 ∧ y0 ≤ Z.of_nat j < y1)
            then default v (PIL.getpixel patch (Z.of_nat i - x0) (Z.of_nat j - y0))
            else v) row)
          (replicate (Z.to_nat h) (replicate (Z.to_nat w) 0)))) x y =
    Some (if bool_decide (x0 ≤ x < x1 ∧ y0 ≤ y < y1)
          then default 0 (PIL.getpixel patch (x - x0) (y - y0)) else 0).
Proof.
  intros Hx Hy. unfold PIL.getpixel at 1.
  rewrite bool_decide_eq_true_2 by lia. cbn [PIL.data].
  rewrite list_lookup_imap, lookup_replicate_2 by lia. cbn.
  rewrite list_lookup_imap, lookup_replicate_2 by lia. cbn.
  rewrite !Z2Nat.id by lia. reflexivity.
Qed.

(** [point] and [convert] act on each pixel. *)
Lemma getpixel_fmap (f : Z → Z) (im : PIL.Image) (mode' : string) (x y : Z) :
  PIL.getpixel (PIL.mkImage mode' (PIL.width im) (PIL.height im)
                  ((λ row : list Z, f <$> row) <$> PIL.data im)) x y =
    f <$> PIL.getpixel im x y.
Proof.
  unfold PIL.getpixel. destruct (bool_decide (0 ≤ x ∧ 0 ≤ y)); [|reflexivity].
  cbn [PIL.data]. rewrite list_lookup_fmap.
  destruct (PIL.data im !! Z.to_nat y) as [row|]; [|reflexivity]. cbn.
  by rewrite list_lookup_fmap.
Qed.

(** On the ring of a rectangle the bounding box is the rectangle. *)
Lemma bounding_box_of_rectangle (db : Session) raster (x0 y0 x1 y1 : Z) :
  envelope_geojson db raster = rectangle x0 y0 x1 y1 →
  x0 ≤ x1 → y0 ≤ y1 →
  returns (_get_bounding_box_of_raster db raster) (x0, y0, x1, y1).
Proof.
  intros Henv Hx Hy. unfold returns, _get_bounding_box_of_raster.
  rewrite Henv. cbn -[Z.min Z.max assert_].
  rewrite bool_decide_eq_true_2 by done. cbn -[Z.min Z.max].
  repeat f_equal; lia.
Qed.

Lemma bounding_box_returns db raster box :
  returns (_get_bounding_box_of_raster db raster) box →
  _get_bounding_box_of_raster db raster =
    ([EvDbScalar (Req_AsGeoJSON_Envelope raster)], inr box).
Proof.
  intros Hret. pose proof (bounding_box_log db raster) as Hlog.
  unfold returns, outcome in Hret. unfold log_of in Hlog.
  destruct (_get_bounding_box_of_raster db raster) as [log r]. cbn in *.
  by subst.
Qed.

(** A reconstruction whose inputs pass every check, step by step. *)
Lemma reconstruction_steps codec db raster image box patch :
  returns (_get_bounding_box_of_raster db raster) box →
  PIL.png_open codec (as_png db raster) = Some patch →
  PIL.mode patch = "L"%string →
  0 ≤ schemas.width image → 0 ≤ schemas.height image →
  box_size box = (PIL.width patch, PIL.height patch) →
  ∃ canvas pasted remapped mask,
    PIL.new (schemas.width image) (schemas.height image) "L" =
      ([EvImageNew (schemas.width image) (schemas.height image)], inr canvas) ∧
    PIL.paste canvas patch box = ([EvPaste], inr pasted) ∧
    PIL.point sentinel_to_255 pasted = ([EvPoint], inr remapped) ∧
    PIL.convert "1" remapped = ([EvConvert "1"], inr mask) ∧
    _raster_to_png_b64 codec db raster image =
      (reconstruction_events raster image,
       inr (PIL.b64encode codec (PIL.png_save codec mask))) ∧
    (PIL.mode remapped = "L"%string ∧
     PIL.mode mask = "1"%string ∧
     PIL.width mask = schemas.width image ∧
     PIL.height mask = schemas.height image) ∧
    (∀ x y, 0 ≤ x < schemas.width image → 0 ≤ y < schemas.height image →
       PIL.getpixel canvas x y = Some 0 ∧
       PIL.getpixel pasted x y =
         Some (if bool_decide (in_box box x y)
               then default 0 (PIL.getpixel patch (x - box.1.1.1) (y - box.1.1.2))
               else 0) ∧
       PIL.getpixel remapped x y = sentinel_to_255 <$> PIL.getpixel pasted x y ∧
       PIL.getpixel mask x y = Some (mask_pixel patch box x y)) ∧
    (∀ x y,
       PIL.getpixel remapped x y = sentinel_to_255 <$> PIL.getpixel pasted x y ∧
       PIL.getpixel mask x y = PIL.to_two_levels <$> PIL.getpixel remapped x y) ∧
    two_level mask.
Proof.
  intros Hbox Hopen Hmode Hw Hh Hsize.
  destruct box as [[[x0 y0] x1] y1]. cbn in Hsize.
  injection Hsize as Hsw Hsh.
  set (w := schemas.width image) in *. set (h := schemas.height image) in *.
  set (canvas := PIL.mkImage "L" w h
         (replicate (Z.to_nat h) (replicate (Z.to_nat w) 0))).
  set (pasted := PIL.mkImage "L" w h
         (imap (λ j row,
            imap (λ i v,
              if bool_decide (x0 ≤ Z.of_nat i < x1 ∧ y0 ≤ Z.of_nat j < y1)
              then default v (PIL.getpixel patch (Z.of_nat i - x0) (Z.of_nat j - y0))
              else v) row) (PIL.data canvas))).
  set (remapped := PIL.mkImage "L" w h
         ((λ row : list Z, sentinel_to_255 <$> row) <$> PIL.data pasted)).
  set (mask := PIL.mkImage "1" w h
         ((λ row : list Z, PIL.to_two_levels <$> row) <$> PIL.data remapped)).
  exists canvas, pasted, remapped, mask.
  split; [apply new_spec; lia|].
  split; [unfold PIL.paste; rewrite bool_decide_eq_true_2 by done; reflexivity|].
  split; [reflexivity|]. split; [reflexivity|].
  split.
  { unfold _raster_to_png_b64.
    rewrite (bounding_box_returns _ _ _ Hbox). unfold PIL.open.
    rewrite Hopen. cbn [mbind M_bind mret M_ret emit raise app].
    rewrite Hmode, (bool_decide_eq_true_2 ("L"%string = "L"%string)) by done.
    cbn [mbind M_bind mret M_ret emit raise app assert_].
    fold w h. rewrite new_spec by lia. unfold PIL.paste.
    rewrite bool_decide_eq_true_2 by done. reflexivity. }
  split; [done|].
  split.
  - intros x y Hx Hy.
    assert (Hcanvas : PIL.getpixel canvas x y = Some 0).
    { unfold PIL.getpixel. rewrite bool_decide_eq_true_2 by lia. cbn [PIL.data canvas].
      rewrite lookup_replicate_2 by lia. cbn.
      rewrite lookup_replicate_2 by lia. reflexivity. }
    pose proof (getpixel_pasted w h "L" patch x0 y0 x1 y1 x y Hx Hy) as Hpasted.
    change (PIL.mkImage "L" w h _) with pasted in Hpasted.
    pose proof (getpixel_fmap sentinel_to_255 pasted "L" x y) as Hremapped.
    change (PIL.mkImage "L" _ _ _) with remapped in Hremapped.
    pose proof (getpixel_fmap PIL.to_two_levels remapped "1" x y) as Hmask.
    change (PIL.mkImage "1" _ _ _) with mask in Hmask.
    split; [exact Hcanvas|]. split; [exact Hpasted|]. split; [exact Hremapped|].
    rewrite Hmask, Hremapped, Hpasted. cbn.
    f_equal. unfold mask_pixel, PIL.to_two_levels, sentinel_to_255, in_box.
    destruct (PIL.getpixel patch (x - x0) (y - y0)) as [v|];
      repeat case_bool_decide; cbn in *; try done; naive_solver.
  - split.
    + intros x y. split.
      * apply (getpixel_fmap sentinel_to_255 pasted "L").
      * apply (getpixel_fmap PIL.to_two_levels remapped "1").
    + split; [reflexivity|]. cbn. split.
      * by rewrite !length_fmap, length_imap, length_replicate.
      * rewrite !Forall_fmap. apply Forall_forall. intros row Hrow. cbn.
        rewrite !length_fmap.
        apply elem_of_lookup_imap in Hrow as (j & row' & -> & Hrow').
        rewrite length_imap. apply lookup_replicate in Hrow' as [-> _].
        split; [by rewrite length_replicate|].
        rewrite !Forall_fmap. apply Forall_forall. intros v _. cbn.
        unfold PIL.to_two_levels. case_bool_decide; auto.
Qed.

(** ** The stand-in codec loses nothing on small two-level images *)

Lemma raw_byte_round_trip (v : Z) :
  0 ≤ v < 256 → raw.Z_of_byte (raw.byte_of_Z v) = v.
Proof.
  intros Hv. unfold raw.Z_of_byte, raw.byte_of_Z.
  destruct (Byte.of_N (Z.to_N v)) as [b|] eqn:E; cbn.
  - apply Byte.to_of_N in E. lia.
  - apply Byte.of_N_None_iff in E. lia.
Qed.

Lemma reshape_concat {A} (rows : list (list A)) (w : nat) :
  Forall (λ row, length row = w) rows →
  reshape (replicate (length rows) w) (concat rows) = rows.
Proof.
  induction 1 as [|row rows Hrow _ IH]; [done|]. cbn.
  rewrite take_app_length', drop_app_length' by done. by rewrite IH.
Qed.

Lemma raw_lossless (im : PIL.Image) :
  two_level im →
  0 ≤ PIL.width im < 256 → 0 ≤ PIL.height im < 256 →
  lossless_on raw.codec im.
Proof.
  destruct im as [mode w h rows]. cbn.
  intros (Hmode & Hlen & Hrows) Hw Hh. cbn in Hmode, Hlen, Hrows. subst mode.
  unfold lossless_on.
  cbn [PIL.b64decode PIL.b64encode PIL.png_save PIL.png_open raw.codec].
  split.
  - by rewrite list_byte_of_string_of_list_byte.
  - unfold raw.open, raw.save. cbn.
    change (Z.to_nat (raw.Z_of_byte (raw.byte_of_Z (Z.of_nat 1)))) with 1%nat.
    cbn. rewrite !raw_byte_round_trip by done.
    rewrite <- list_fmap_compose.
    assert (Hpx : raw.Z_of_byte ∘ raw.byte_of_Z <$> concat rows = concat rows).
    { rewrite <- (list_fmap_id (concat rows)) at 2.
      apply Forall_fmap_ext. apply Forall_concat.
      eapply Forall_impl; [exact Hrows|]. intros row [_ Hpx]. cbn.
      eapply Forall_impl; [exact Hpx|]. intros v Hv. cbn.
      apply raw_byte_round_trip. destruct Hv as [->| ->]; lia. }
    rewrite Hpx, <- Hlen, reshape_concat; [done|].
    eapply Forall_impl; [exact Hrows|]. by intros row [? _].
Qed.

(** C8: when the decoded patch is not of mode "L", reconstruction raises the
    mode assertion's error (the design's [MaskFormatError]) having only
    queried the database and opened the patch: no image is allocated, pasted
    into, remapped or saved, and no mask is returned. *)
Theorem wrong_mode_fails_before_allocation :
  ∀ (codec : PIL.Codec) (db : Session) (raster : RasterElement)
    (image : schemas.Image) (box : Z * Z * Z * Z) (patch : PIL.Image),
    returns (_get_bounding_box_of_raster db raster) box →
    PIL.png_open codec (as_png db raster) = Some patch →
    PIL.mode patch ≠ "L"%string →
    let run := _raster_to_png_b64 codec db raster image in
    raises run MaskFormatError ∧
    log_of run = [ EvDbScalar (Req_AsGeoJSON_Envelope raster);
                   EvDbScalar (Req_AsPNG raster);
                   EvImageOpen ].
Proof.
  intros codec db raster image box patch Hbox Hopen Hmode run. subst run.
  unfold _raster_to_png_b64.
  rewrite (bounding_box_returns _ _ _ Hbox). unfold PIL.open.
  rewrite Hopen. cbn [mbind M_bind mret M_ret emit raise app].
  rewrite bool_decide_eq_false_2 by done. split; reflexivity.
Qed.

(** At a patch that decodes as three-band colour. *)
Lemma wrong_mode_fails_before_allocation_witness :
  let run := _raster_to_png_b64 raw.codec (patch_at 2 2 colour_patch)
               "raster" five_by_five in
  raises run MaskFormatError ∧
  log_of run = [ EvDbScalar (Req_AsGeoJSON_Envelope "raster");
                 EvDbScalar (Req_AsPNG "raster");
                 EvImageOpen ].
Proof.
  apply (wrong_mode_fails_before_allocation raw.codec
           (patch_at 2 2 colour_patch) "raster" five_by_five
           (2, 2, 4, 4) colour_patch).
  - reflexivity.
  - reflexivity.
  - discriminate.
Defined.

(** C7: binarization is two steps after the paste. [point] maps a pixel of
    value 1 to 255 and a pixel of any other value (0, or above 1) to 0,
    leaving the mode "L"; [convert] then turns the remapped image into mode
    "1", and its pixels keep these two levels. The mask that is encoded is
    the outcome of the second step. *)
Theorem binarization_two_step :
  ∀ (codec : PIL.Codec) (db : Session) (raster : RasterElement)
    (image : schemas.Image) (box : Z * Z * Z * Z) (patch : PIL.Image),
    returns (_get_bounding_box_of_raster db raster) box →
    PIL.png_open codec (as_png db raster) = Some patch →
    PIL.mode patch = "L"%string →
    0 ≤ schemas.width image → 0 ≤ schemas.height image →
    box_size box = (PIL.width patch, PIL.height patch) →
    ∃ canvas pasted remapped mask,
      returns (PIL.new (schemas.width image) (schemas.height image) "L") canvas ∧
      returns (PIL.paste canvas patch box) pasted ∧
      returns (PIL.point sentinel_to_255 pasted) remapped ∧
      returns (PIL.convert "1" remapped) mask ∧
      _raster_to_png_b64 codec db raster image =
        (reconstruction_events raster image,
         inr (PIL.b64encode codec (PIL.png_save codec mask))) ∧
      PIL.mode remapped = "L"%string ∧ PIL.mode mask = "1"%string ∧
      ∀ x y v, PIL.getpixel pasted x y = Some v →
        PIL.getpixel remapped x y = Some (if bool_decide (v = 1) then 255 else 0) ∧
        PIL.getpixel mask x y = Some (if bool_decide (v = 1) then 255 else 0).
Proof.
  intros codec db raster image box patch Hbox Hopen Hmode Hw Hh Hsize.
  destruct (reconstruction_steps codec db raster image box patch
              Hbox Hopen Hmode Hw Hh Hsize)
    as (canvas & pasted & remapped & mask & Hnew & Hpaste & Hpoint & Hconvert &
        Hrun & (Hm1 & Hm2 & _) & _ & Hpx & _).
  exists canvas, pasted, remapped, mask. unfold returns.
  rewrite Hnew, Hpaste, Hpoint, Hconvert.
  repeat (split; [done|]).
  intros x y v Hv. destruct (Hpx x y) as [Hr Hk].
  rewrite Hk, Hr, Hv. cbn. unfold sentinel_to_255, PIL.to_two_levels.
  case_bool_decide; split; reflexivity.
Qed.

(** At the 2 × 2 patch stored at (2, 2) of a 5 × 5 image. *)
Lemma binarization_two_step_witness :
  ∃ canvas pasted remapped mask,
    returns (PIL.new 5 5 "L") canvas ∧
    returns (PIL.paste canvas corner_patch (2, 2, 4, 4)) pasted ∧
    returns (PIL.point sentinel_to_255 pasted) remapped ∧
    returns (PIL.convert "1" remapped) mask ∧
    _raster_to_png_b64 raw.codec (patch_at 2 2 corner_patch) "raster" five_by_five =
      (reconstruction_events "raster" five_by_five,
       inr (PIL.b64encode raw.codec (PIL.png_save raw.codec mask))) ∧
    PIL.mode remapped = "L"%string ∧ PIL.mode mask = "1"%string ∧
    ∀ x y v, PIL.getpixel pasted x y = Some v →
      PIL.getpixel remapped x y = Some (if bool_decide (v = 1) then 255 else 0) ∧
      PIL.getpixel mask x y = Some (if bool_decide (v = 1) then 255 else 0).
Proof.
  apply (binarization_two_step raw.codec (patch_at 2 2 corner_patch)
           "raster" five_by_five (2, 2, 4, 4) corner_patch).
  - reflexivity.
  - reflexivity.
  - reflexivity.
  - cbn. lia.
  - cbn. lia.
  - reflexivity.
Defined.

(** C3, as stated, fails: for a 2 × 2 patch whose envelope runs from x = 4
    to x = 6 in an image 5 pixels wide, reconstruction raises nothing; it
    returns a mask in which the patch's column that falls outside the image
    is left out. *)
Lemma envelope_beyond_width_is_clipped :
  let db := patch_at 4 2 corner_patch in
  let run := _raster_to_png_b64 raw.codec db "raster" five_by_five in
  returns (_get_bounding_box_of_raster db "raster") (4, 2, 6, 4) ∧
  ¬ envelope_inside (4, 2, 6, 4) five_by_five ∧
  (∃ s, returns run s ∧
        decode_mask raw.codec s =
          Some (PIL.mkImage "1" 5 5
                  [ [0; 0; 0; 0; 0];
                    [0; 0; 0; 0; 0];
                    [0; 0; 0; 0; 255];
                    [0; 0; 0; 0; 255];
                    [0; 0; 0; 0; 0] ])) ∧
  ¬ ∃ e, raises run e.
Proof.
  cbn zeta. split; [reflexivity|]. split.
  - unfold envelope_inside. cbn. lia.
  - split.
    + eexists. split; [reflexivity|]. vm_compute. reflexivity.
    + intros [e He]. vm_compute in He. discriminate He.
Qed.

(** C3, amended: reconstruction does not compare the envelope with the
    image's dimensions. Whenever the envelope has the size of the decoded
    patch (and the patch is of mode "L"), it returns a mask, wherever the
    envelope lies: with [x_max] equal to the image's width, and also beyond
    it, where the pixels of the patch that fall outside the image are left
    out. Every pixel of the mask is 255 where the envelope covers it and the
    patch holds 1, and 0 otherwise. *)
Theorem envelope_not_validated :
  ∀ (codec : PIL.Codec) (db : Session) (raster : RasterElement)
    (image : schemas.Image) (box : Z * Z * Z * Z) (patch : PIL.Image),
    returns (_get_bounding_box_of_raster db raster) box →
    PIL.png_open codec (as_png db raster) = Some patch →
    PIL.mode patch = "L"%string →
    0 ≤ schemas.width image → 0 ≤ schemas.height image →
    box_size box = (PIL.width patch, PIL.height patch) →
    ∃ mask,
      returns (_raster_to_png_b64 codec db raster image)
        (PIL.b64encode codec (PIL.png_save codec mask)) ∧
      ∀ x y, 0 ≤ x < schemas.width image → 0 ≤ y < schemas.height image →
        PIL.getpixel mask x y = Some (mask_pixel patch box x y).
Proof.
  intros codec db raster image box patch Hbox Hopen Hmode Hw Hh Hsize.
  destruct (reconstruction_steps codec db raster image box patch
              Hbox Hopen Hmode Hw Hh Hsize)
    as (canvas & pasted & remapped & mask & _ & _ & _ & _ &
        Hrun & _ & Hpx & _).
  exists mask. split.
  - unfold returns. by rewrite Hrun.
  - intros x y Hx Hy. by destruct (Hpx x y Hx Hy) as (_ & _ & _ & Hmask).
Qed.

(** At an envelope whose [x_max] is the image's width. *)
Lemma envelope_not_validated_witness :
  returns (_get_bounding_box_of_raster (patch_at 3 2 corner_patch) "raster")
    (3, 2, schemas.width five_by_five, 4) ∧
  ∃ mask,
    returns (_raster_to_png_b64 raw.codec (patch_at 3 2 corner_patch)
               "raster" five_by_five)
      (PIL.b64encode raw.codec (PIL.png_save raw.codec mask)) ∧
    ∀ x y, 0 ≤ x < 5 → 0 ≤ y < 5 →
      PIL.getpixel mask x y = Some (mask_pixel corner_patch (3, 2, 5, 4) x y).
Proof.
  split; [reflexivity|].
  apply (envelope_not_validated raw.codec (patch_at 3 2 corner_patch)
           "raster" five_by_five (3, 2, 5, 4) corner_patch).
  - reflexivity.
  - reflexivity.
  - reflexivity.
  - cbn. lia.
  - cbn. lia.
  - reflexivity.
Defined.

(** C4: round trip. Take a patch of mode "L" with pixels 0 and 1, whose
    envelope has its size and lies inside the image, and a codec that loses
    nothing on two-level images of the image's size. Then reconstruction
    returns a string that decodes to a two-level image of the image's size
    in which the pixel at the envelope's top-left corner plus [(i, j)] is 255
    exactly when the patch holds 1 at [(i, j)] and 0 exactly when it holds 0,
    and every pixel the envelope does not cover is 0. *)
Theorem mask_round_trip :
  ∀ (codec : PIL.Codec) (db : Session) (raster : RasterElement)
    (image : schemas.Image) (x_min y_min x_max y_max : Z) (patch : PIL.Image),
    let box := (x_min, y_min, x_max, y_max) in
    returns (_get_bounding_box_of_raster db raster) box →
    PIL.png_open codec (as_png db raster) = Some patch →
    PIL.mode patch = "L"%string →
    box_size box = (PIL.width patch, PIL.height patch) →
    envelope_inside box image →
    (∀ i j, 0 ≤ i < PIL.width patch → 0 ≤ j < PIL.height patch →
       PIL.getpixel patch i j = Some 0 ∨ PIL.getpixel patch i j = Some 1) →
    (∀ im, two_level im →
       PIL.width im = schemas.width image →
       PIL.height im = schemas.height image →
       lossless_on codec im) →
    ∃ s decoded,
      returns (_raster_to_png_b64 codec db raster image) s ∧
      decode_mask codec s = Some decoded ∧
      two_level decoded ∧
      PIL.width decoded = schemas.width image ∧
      PIL.height decoded = schemas.height image ∧
      (∀ i j, 0 ≤ i < PIL.width patch → 0 ≤ j < PIL.height patch →
         (PIL.getpixel decoded (x_min + i) (y_min + j) = Some 255 ↔
            PIL.getpixel patch i j = Some 1) ∧
         (PIL.getpixel decoded (x_min + i) (y_min + j) = Some 0 ↔
            PIL.getpixel patch i j = Some 0)) ∧
      (∀ x y, 0 ≤ x < schemas.width image → 0 ≤ y < schemas.height image →
         ¬ in_box box x y → PIL.getpixel decoded x y = Some 0).
Proof.
  intros codec db raster image x_min y_min x_max y_max patch box
    Hbox Hopen Hmode Hsize Hinside Hbits Hcodec.
  assert (Hw : 0 ≤ schemas.width image) by (cbn in Hinside; lia).
  assert (Hh : 0 ≤ schemas.height image) by (cbn in Hinside; lia).
  destruct (reconstruction_steps codec db raster image box patch
              Hbox Hopen Hmode Hw Hh Hsize)
    as (canvas & pasted & remapped & mask & _ & _ & _ & _ &
        Hrun & (_ & _ & Hmw & Hmh) & Hpx & _ & Htwo).
  destruct (Hcodec mask Htwo Hmw Hmh) as [Hb64 Hpng].
  exists (PIL.b64encode codec (PIL.png_save codec mask)), mask.
  split; [unfold returns; by rewrite Hrun|].
  split; [unfold decode_mask; rewrite Hb64; exact Hpng|].
  split; [exact Htwo|]. split; [exact Hmw|]. split; [exact Hmh|].
  cbn in Hsize. injection Hsize as Hsw Hsh. cbn in Hinside.
  split.
  - intros i j Hi Hj.
    destruct (Hpx (x_min + i) (y_min + j)) as (_ & _ & _ & Hmask); [lia..|].
    rewrite Hmask. unfold mask_pixel, box.
    replace (x_min + i - x_min) with i by lia.
    replace (y_min + j - y_min) with j by lia.
    destruct (Hbits i j Hi Hj) as [H0|H1].
    + rewrite H0. rewrite bool_decide_eq_false_2 by (intros (_ & _ & ?); done).
      split; split; done.
    + rewrite H1. rewrite bool_decide_eq_true_2 by (repeat split; lia || done).
      split; split; done.
  - intros x y Hx Hy Hout.
    destruct (Hpx x y Hx Hy) as (_ & _ & _ & Hmask).
    rewrite Hmask. unfold mask_pixel, box.
    rewrite bool_decide_eq_false_2; [done|].
    intros (? & ? & _). apply Hout. done.
Qed.

(** At the 2 × 2 patch stored at (2, 2) of a 5 × 5 image, with the
    stand-in codec. *)
Lemma mask_round_trip_witness :
  ∃ s decoded,
    returns (_raster_to_png_b64 raw.codec (patch_at 2 2 corner_patch)
               "raster" five_by_five) s ∧
    decode_mask raw.codec s = Some decoded ∧
    two_level decoded ∧
    PIL.width decoded = 5 ∧
    PIL.height decoded = 5 ∧
    (∀ i j, 0 ≤ i < 2 → 0 ≤ j < 2 →
       (PIL.getpixel decoded (2 + i) (2 + j) = Some 255 ↔
          PIL.getpixel corner_patch i j = Some 1) ∧
       (PIL.getpixel decoded (2 + i) (2 + j) = Some 0 ↔
          PIL.getpixel corner_patch i j = Some 0)) ∧
    (∀ x y, 0 ≤ x < 5 → 0 ≤ y < 5 →
       ¬ in_box (2, 2, 4, 4) x y → PIL.getpixel decoded x y = Some 0).
Proof.
  apply (mask_round_trip raw.codec (patch_at 2 2 corner_patch)
           "raster" five_by_five 2 2 4 4 corner_patch).
  - reflexivity.
  - reflexivity.
  - reflexivity.
  - reflexivity.
  - cbn. lia.
  - intros i j Hi Hj. cbn in Hi, Hj.
    assert (Hij : (i = 0 ∨ i = 1) ∧ (j = 0 ∨ j = 1)) by lia.
    destruct Hij as [[-> | ->] [-> | ->]]; cbn; auto.
  - intros im Htwo Hw Hh. apply raw_lossless; [exact Htwo|rewrite Hw|rewrite Hh];
      cbn; lia.
Defined.

(** * Further properties *)

(** ** Laws of the computations *)

Lemma bind_mret {A B} (a : A) (f : A → M B) : mret a ≫= f = f a.
Proof. unfold mret, M_ret, mbind, M_bind. by destruct (f a). Qed.

Lemma bind_raise {A B} (e : exn) (f : A → M B) : raise e ≫= f = raise e.
Proof. reflexivity. Qed.

(** ** The bounding box of a raster *)

Lemma foldl_min_le (x : Z) (l : list Z) :
  foldl Z.min x l ≤ x ∧ Forall (λ y, foldl Z.min x l ≤ y) l ∧
  foldl Z.min x l ∈ x :: l.
Proof.
  revert x. induction l as [|y l IH]; intros x; cbn.
  - split; [lia|]. split; [constructor|]. by left.
  - destruct (IH (x `min` y)) as (Hle & Hall & Hin).
    split; [lia|]. split.
    + constructor; [lia|exact Hall].
    + apply elem_of_cons in Hin as [Heq|Hin].
      * rewrite Heq. destruct (Z.min_spec x y) as [[_ ->]|[_ ->]].
        -- by left.
        -- right. by left.
      * right. by right.
Qed.

Lemma foldl_max_ge (x : Z) (l : list Z) :
  x ≤ foldl Z.max x l ∧ Forall (λ y, y ≤ foldl Z.max x l) l ∧
  foldl Z.max x l ∈ x :: l.
Proof.
  revert x. induction l as [|y l IH]; intros x; cbn.
  - split; [lia|]. split; [constructor|]. by left.
  - destruct (IH (x `max` y)) as (Hle & Hall & Hin).
    split; [lia|]. split.
    + constructor; [lia|exact Hall].
    + apply elem_of_cons in Hin as [Heq|Hin].
      * rewrite Heq. destruct (Z.max_spec x y) as [[_ ->]|[_ ->]].
        -- right. by left.
        -- by left.
      * right. by right.
Qed.

(** [min(xs)] of a non-empty list is a lower bound that is attained. *)
Lemma py_min_spec (xs : list Z) :
  xs ≠ [] →
  ∃ m, py_min xs = mret m ∧ m ∈ xs ∧ ∀ x, x ∈ xs → m ≤ x.
Proof.
  destruct xs as [|x xs]; [done|]. intros _.
  destruct (foldl_min_le x xs) as (Hle & Hall & Hin).
  exists (foldl Z.min x xs). split; [reflexivity|]. split; [exact Hin|].
  intros y [->|Hy]%elem_of_cons; [exact Hle|].
  rewrite Forall_forall in Hall. by apply Hall.
Qed.

Lemma py_max_spec (xs : list Z) :
  xs ≠ [] →
  ∃ m, py_max xs = mret m ∧ m ∈ xs ∧ ∀ x, x ∈ xs → x ≤ m.
Proof.
  destruct xs as [|x xs]; [done|]. intros _.
  destruct (foldl_max_ge x xs) as (Hle & Hall & Hin).
  exists (foldl Z.max x xs). split; [reflexivity|]. split; [exact Hin|].
  intros y [->|Hy]%elem_of_cons; [exact Hle|].
  rewrite Forall_forall in Hall. by apply Hall.
Qed.

(** The comprehension [[pt[i] for pt in ring]]: it returns the [i]-th
    coordinates when every point has one, and raises [IndexError] at the
    first point that has none. *)
Lemma comprehension_getitem_returns (i : nat) (ring : list (list Z)) :
  Forall (λ pt, (i < length pt)%nat) ring →
  ∃ cs, mapM (λ pt, getitem pt i) ring = mret cs ∧
        Forall2 (λ pt c, pt !! i = Some c) ring cs.
Proof.
  induction 1 as [|pt ring Hpt _ (cs & Hcs & Hall)].
  - exists []. split; [reflexivity|constructor].
  - destruct (lookup_lt_is_Some_2 pt i Hpt) as [c Hc].
    exists (c :: cs). split.
    + assert (Hget : getitem pt i = mret c) by (unfold getitem; by rewrite Hc).
      cbn [mapM]. rewrite Hget, bind_mret, Hcs. reflexivity.
    + by constructor.
Qed.

Lemma comprehension_getitem_raises (i : nat) (ring : list (list Z)) :
  Exists (λ pt, (length pt ≤ i)%nat) ring →
  mapM (λ pt, getitem pt i) ring = raise IndexError.
Proof.
  induction ring as [|pt ring IH]; intros Hex; [by apply Exists_nil in Hex|].
  cbn [mapM].
  destruct (pt !! i) as [c|] eqn:Hc.
  - assert (Hget : getitem pt i = mret c) by (unfold getitem; by rewrite Hc).
    rewrite Hget, bind_mret.
    apply Exists_cons in Hex as [Hpt|Hex].
    + apply lookup_lt_Some in Hc. lia.
    + rewrite (IH Hex). reflexivity.
  - assert (Hget : getitem pt i = raise IndexError)
      by (unfold getitem; by rewrite Hc).
    rewrite Hget. reflexivity.
Qed.

Lemma Forall2_getitem_elem (i : nat) (ring : list (list Z)) (cs : list Z) :
  Forall2 (λ pt c, pt !! i = Some c) ring cs →
  (∀ c, c ∈ cs → ∃ pt, pt ∈ ring ∧ pt !! i = Some c) ∧
  (∀ pt c, pt ∈ ring → pt !! i = Some c → c ∈ cs).
Proof.
  induction 1 as [|pt c ring cs Hpt _ [IH1 IH2]].
  - split; [intros c Hc|intros pt c Hpt]; by apply elem_of_nil in Hc || by apply elem_of_nil in Hpt.
  - split.
    + intros c' [->|Hc']%elem_of_cons.
      * exists pt. split; [by left|done].
      * destruct (IH1 c' Hc') as (pt' & Hin & Hget).
        exists pt'. split; [by right|done].
    + intros pt' c' [->|Hin]%elem_of_cons Hget.
      * rewrite Hpt in Hget. injection Hget as <-. by left.
      * right. by eapply IH2.
Qed.

(** What [_get_bounding_box_of_raster] does after the envelope has arrived
    as one ring. *)
Lemma bounding_box_single_ring db raster ring :
  coordinates (envelope_geojson db raster) = [ring] →
  _get_bounding_box_of_raster db raster =
    (emit (EvDbScalar (Req_AsGeoJSON_Envelope raster));;
     xs ← mapM (λ pt, getitem pt 0) ring;
     ys ← mapM (λ pt, getitem pt 1) ring;
     x_min ← py_min xs;
     y_min ← py_min ys;
     x_max ← py_max xs;
     y_max ← py_max ys;
     mret (x_min, y_min, x_max, y_max)).
Proof.
  intros Hring. unfold _get_bounding_box_of_raster. rewrite Hring.
  rewrite bool_decide_eq_true_2 by done. unfold assert_.
  rewrite !bind_mret. reflexivity.
Qed.

(** X1: an envelope that does not arrive as exactly one ring (none, or a
    polygon with holes) fails the assertion on the ring count, right after
    the envelope request; mask reconstruction then fails the same way,
    before the raster's PNG is requested. *)
Theorem bounding_box_requires_single_ring :
  ∀ (codec : PIL.Codec) (db : Session) (raster : RasterElement)
    (image : schemas.Image),
    length (coordinates (envelope_geojson db raster)) ≠ 1%nat →
    let failed {A} : M A :=
      ([EvDbScalar (Req_AsGeoJSON_Envelope raster)],
       inl (AssertionError Assert_single_ring)) in
    _get_bounding_box_of_raster db raster = failed ∧
    _raster_to_png_b64 codec db raster image = failed.
Proof.
  intros codec db raster image Hlen failed. subst failed.
  assert (Hbox : _get_bounding_box_of_raster db raster =
            ([EvDbScalar (Req_AsGeoJSON_Envelope raster)],
             inl (AssertionError Assert_single_ring))).
  { unfold _get_bounding_box_of_raster.
    rewrite bool_decide_eq_false_2 by done. reflexivity. }
  split; [exact Hbox|].
  unfold _raster_to_png_b64. rewrite Hbox. reflexivity.
Qed.

(** At a polygon with a hole. *)
Lemma bounding_box_requires_single_ring_witness :
  _get_bounding_box_of_raster (answering with_hole corner_patch) "raster" =
    ([EvDbScalar (Req_AsGeoJSON_Envelope "raster")],
     inl (AssertionError Assert_single_ring)) ∧
  _raster_to_png_b64 raw.codec (answering with_hole corner_patch) "raster"
      five_by_five =
    ([EvDbScalar (Req_AsGeoJSON_Envelope "raster")],
     inl (AssertionError Assert_single_ring)).
Proof.
  apply (bounding_box_requires_single_ring raw.codec
           (answering with_hole corner_patch) "raster" five_by_five).
  cbn. discriminate.
Defined.

(** X2: for an envelope of one non-empty ring whose points all have two
    coordinates, the box returned encloses every point of the ring and is the
    tightest such box: each of its four bounds is the coordinate of some
    point of the ring. In particular [x_min ≤ x_max] and [y_min ≤ y_max]. *)
Theorem bounding_box_encloses_ring :
  ∀ (db : Session) (raster : RasterElement) (ring : list (list Z)),
    coordinates (envelope_geojson db raster) = [ring] →
    ring ≠ [] →
    Forall (λ pt, (2 ≤ length pt)%nat) ring →
    ∃ x_min y_min x_max y_max,
      returns (_get_bounding_box_of_raster db raster)
        (x_min, y_min, x_max, y_max) ∧
      (∀ pt x y, pt ∈ ring → pt !! 0%nat = Some x → pt !! 1%nat = Some y →
         x_min ≤ x ≤ x_max ∧ y_min ≤ y ≤ y_max) ∧
      (∃ pt, pt ∈ ring ∧ pt !! 0%nat = Some x_min) ∧
      (∃ pt, pt ∈ ring ∧ pt !! 1%nat = Some y_min) ∧
      (∃ pt, pt ∈ ring ∧ pt !! 0%nat = Some x_max) ∧
      (∃ pt, pt ∈ ring ∧ pt !! 1%nat = Some y_max) ∧
      x_min ≤ x_max ∧ y_min ≤ y_max.
Proof.
  intros db raster ring Hring Hne Hpts.
  destruct (comprehension_getitem_returns 0 ring) as (xs & Hxs & Hxs2).
  { eapply Forall_impl; [exact Hpts|]. cbn. lia. }
  destruct (comprehension_getitem_returns 1 ring) as (ys & Hys & Hys2).
  { eapply Forall_impl; [exact Hpts|]. cbn. lia. }
  assert (Hxne : xs ≠ []).
  { intros ->. apply Forall2_nil_inv_r in Hxs2. done. }
  assert (Hyne : ys ≠ []).
  { intros ->. apply Forall2_nil_inv_r in Hys2. done. }
  destruct (py_min_spec xs Hxne) as (x_min & Hx0 & Hx0in & Hx0le).
  destruct (py_min_spec ys Hyne) as (y_min & Hy0 & Hy0in & Hy0le).
  destruct (py_max_spec xs Hxne) as (x_max & Hx1 & Hx1in & Hx1le).
  destruct (py_max_spec ys Hyne) as (y_max & Hy1 & Hy1in & Hy1le).
  destruct (Forall2_getitem_elem 0 ring xs Hxs2) as [Hxfrom Hxto].
  destruct (Forall2_getitem_elem 1 ring ys Hys2) as [Hyfrom Hyto].
  exists x_min, y_min, x_max, y_max.
  split.
  { unfold returns. rewrite (bounding_box_single_ring _ _ _ Hring).
    rewrite Hxs, bind_mret, Hys, bind_mret.
    rewrite Hx0, bind_mret, Hy0, bind_mret, Hx1, bind_mret, Hy1, bind_mret.
    reflexivity. }
  split.
  { intros pt x y Hpt Hx Hy.
    pose proof (Hxto pt x Hpt Hx) as Hxin.
    pose proof (Hyto pt y Hpt Hy) as Hyin.
    pose proof (Hx0le x Hxin). pose proof (Hx1le x Hxin).
    pose proof (Hy0le y Hyin). pose proof (Hy1le y Hyin). lia. }
  split; [by apply Hxfrom|]. split; [by apply Hyfrom|].
  split; [by apply Hxfrom|]. split; [by apply Hyfrom|].
  split; [apply Hx1le, Hx0in|apply Hy1le, Hy0in].
Qed.

(** At a triangle: the box from (1, 2) to (4, 7). *)
Lemma bounding_box_encloses_ring_witness :
  ∃ x_min y_min x_max y_max,
    returns (_get_bounding_box_of_raster (answering triangle corner_patch)
               "raster")
      (x_min, y_min, x_max, y_max) ∧
    (∀ pt x y, pt ∈ [[1; 5]; [4; 2]; [3; 7]; [1; 5]] →
       pt !! 0%nat = Some x → pt !! 1%nat = Some y →
       x_min ≤ x ≤ x_max ∧ y_min ≤ y ≤ y_max) ∧
    (∃ pt, pt ∈ [[1; 5]; [4; 2]; [3; 7]; [1; 5]] ∧ pt !! 0%nat = Some x_min) ∧
    (∃ pt, pt ∈ [[1; 5]; [4; 2]; [3; 7]; [1; 5]] ∧ pt !! 1%nat = Some y_min) ∧
    (∃ pt, pt ∈ [[1; 5]; [4; 2]; [3; 7]; [1; 5]] ∧ pt !! 0%nat = Some x_max) ∧
    (∃ pt, pt ∈ [[1; 5]; [4; 2]; [3; 7]; [1; 5]] ∧ pt !! 1%nat = Some y_max) ∧
    x_min ≤ x_max ∧ y_min ≤ y_max.
Proof.
  apply (bounding_box_encloses_ring (answering triangle corner_patch) "raster"
           [[1; 5]; [4; 2]; [3; 7]; [1; 5]]).
  - reflexivity.
  - discriminate.
  - repeat constructor.
Defined.

(** X3: an envelope of one ring is rejected by the box computation itself in
    two cases: a ring without points makes [min] raise a [ValueError], and a
    ring with a point of fewer than two coordinates makes the indexing raise
    an [IndexError]. Nothing but the envelope request has happened by then. *)
Theorem bounding_box_malformed_ring :
  ∀ (db : Session) (raster : RasterElement) (ring : list (list Z)),
    coordinates (envelope_geojson db raster) = [ring] →
    let sent := [EvDbScalar (Req_AsGeoJSON_Envelope raster)] in
    (ring = [] →
       _get_bounding_box_of_raster db raster =
         (sent, inl (ValueError Empty_sequence))) ∧
    (Exists (λ pt, (length pt < 2)%nat) ring →
       _get_bounding_box_of_raster db raster = (sent, inl IndexError)).
Proof.
  intros db raster ring Hring sent. subst sent.
  rewrite (bounding_box_single_ring _ _ _ Hring). split.
  - intros ->. reflexivity.
  - intros Hshort.
    destruct (decide (Exists (λ pt, (length pt ≤ 0)%nat) ring)) as [H0|H0].
    + rewrite (comprehension_getitem_raises 0 ring H0). reflexivity.
    + apply not_Exists_Forall in H0; [|intros pt; apply _].
      destruct (comprehension_getitem_returns 0 ring) as (xs & Hxs & _).
      { eapply Forall_impl; [exact H0|]. cbn. lia. }
      rewrite Hxs, bind_mret.
      rewrite (comprehension_getitem_raises 1 ring); [reflexivity|].
      eapply Exists_impl; [exact Hshort|]. cbn. lia.
Qed.

(** At a ring whose second point has one coordinate. *)
Lemma bounding_box_malformed_ring_witness :
  _get_bounding_box_of_raster (answering short_point corner_patch) "raster" =
    ([EvDbScalar (Req_AsGeoJSON_Envelope "raster")], inl IndexError).
Proof.
  apply (bounding_box_malformed_ring (answering short_point corner_patch)
           "raster" [[1; 5]; [4]; [3; 7]; [1; 5]]).
  - reflexivity.
  - apply Exists_cons_tl, Exists_cons_hd. cbn. lia.
Defined.

(** ** The area filters, further *)

Lemma area_filter_supported entity_kind stmt table task min_area max_area area :
  filter_area entity_kind task table = Some area →
  area_filter entity_kind stmt table task min_area max_area =
    let crits := area_criteria area min_area max_area in
    (EvWhere <$> crits, inr (add_criteria stmt crits)).
Proof.
  destruct entity_kind; cbn [filter_area area_filter]; intros Harea.
  - by apply det_filter_supported.
  - injection Harea as <-. apply seg_filter_spec.
Qed.

Lemma detection_area_none task b :
  detection_area task b = None →
  task ≠ Some BBOX_OBJECT_DETECTION ∧ task ≠ Some POLY_OBJECT_DETECTION.
Proof. destruct task as [[]|]; cbn; intros; split; congruence. Qed.

Lemma length_area_criteria area min_area max_area :
  length (area_criteria area min_area max_area) = bounds_given min_area max_area.
Proof. by destruct min_area, max_area. Qed.

(** X4: a filter that returns has only added criteria. The statement it
    returns has the entity and the joins of the one it was given, and its
    criteria are the given ones followed by one new criterion per bound that
    is present; these additions are all the filter did. *)
Theorem area_filter_only_adds_criteria :
  ∀ (entity_kind : EntityKind) (stmt : Select) (table : Table)
    (task : option Task) (min_area max_area : option Q) (filtered : Select),
    let run := area_filter entity_kind stmt table task min_area max_area in
    returns run filtered →
    sel_entity filtered = sel_entity stmt ∧
    sel_joins filtered = sel_joins stmt ∧
    ∃ added,
      sel_where filtered = (sel_where stmt ++ added)%list ∧
      length added = bounds_given min_area max_area ∧
      log_of run = EvWhere <$> added.
Proof.
  intros entity_kind stmt table task min_area max_area filtered run Hret.
  subst run. unfold returns in Hret.
  destruct (filter_area entity_kind task table) as [area|] eqn:Harea.
  - rewrite (area_filter_supported _ _ _ _ _ _ _ Harea) in Hret |- *.
    cbn in Hret. injection Hret as <-. cbn.
    split; [done|]. split; [done|].
    eexists. split; [reflexivity|]. split; [apply length_area_criteria|done].
  - destruct entity_kind; [|discriminate Harea]. cbn in Harea.
    apply detection_area_none in Harea as [Hb Hp].
    destruct (is_None min_area && is_None max_area) eqn:Hbounds.
    + destruct min_area, max_area; try discriminate Hbounds.
      cbn in Hret. injection Hret as <-.
      split; [done|]. split; [done|].
      exists []. by rewrite app_nil_r.
    + cbn [area_filter] in Hret.
      rewrite (det_filter_unsupported _ _ _ _ _ Hb Hp Hbounds) in Hret.
      discriminate Hret.
Qed.

(** With a lower bound only, on the predicted polygon detections. *)
Lemma area_filter_only_adds_criteria_witness :
  let stmt := pred_detections_base "M1" "D1" POLY_OBJECT_DETECTION in
  let area := ST_Area (boundary models.PredictedDetection) in
  let run := area_filter Detection stmt models.PredictedDetection
               (Some POLY_OBJECT_DETECTION) (Some 10%Q) None in
  returns run (add_criteria stmt [SqlGe area (Float 10%Q)]) ∧
  ∃ added,
    sel_where (add_criteria stmt [SqlGe area (Float 10%Q)]) =
      (sel_where stmt ++ added)%list ∧
    length added = 1%nat ∧
    log_of run = EvWhere <$> added.
Proof.
  cbn zeta. split; [reflexivity|].
  apply (area_filter_only_adds_criteria Detection
           (pred_detections_base "M1" "D1" POLY_OBJECT_DETECTION)
           models.PredictedDetection (Some POLY_OBJECT_DETECTION)
           (Some 10%Q) None).
  reflexivity.
Defined.

Lemma satisfied_area_criteria row area min_area max_area :
  Forall (satisfied row) (area_criteria area min_area max_area) ↔
  within_bounds min_area max_area (row_value row area).
Proof.
  unfold within_bounds.
  destruct min_area as [lo|], max_area as [hi|]; cbn;
    rewrite ?Forall_cons, ?Forall_nil; cbn; split.
  - intros (Hlo & Hhi & _). split; intros ? [= <-]; done.
  - intros [Hlo Hhi]. auto.
  - intros (Hlo & _). split; [intros ? [= <-]; done|intros ? [=]].
  - intros [Hlo _]. auto.
  - intros (Hhi & _). split; [intros ? [=]|intros ? [= <-]; done].
  - intros [_ Hhi]. auto.
  - intros _. split; intros ? [=].
  - done.
Qed.

(** X5: what the added criteria select. For a task that has an area for the
    kind of entity, the filter returns a statement that selects a row exactly
    when the given statement selects it and the row's area lies within the
    bounds that are present, however the database evaluates the criteria of
    the given statement. *)
Theorem area_filter_keeps_rows_in_range :
  ∀ (entity_kind : EntityKind) (stmt : Select) (table : Table)
    (task : option Task) (min_area max_area : option Q) (area : sqlexpr),
    filter_area entity_kind task table = Some area →
    ∃ filtered,
      returns (area_filter entity_kind stmt table task min_area max_area)
        filtered ∧
      ∀ row : row_view,
        selects filtered row ↔
        selects stmt row ∧ within_bounds min_area max_area (row_value row area).
Proof.
  intros entity_kind stmt table task min_area max_area area Harea.
  eexists. split.
  - unfold returns.
    rewrite (area_filter_supported _ _ _ _ _ _ _ Harea). reflexivity.
  - intros row. unfold selects. cbn.
    by rewrite Forall_app, satisfied_area_criteria.
Qed.

(** On ground-truth bounding boxes with areas between 4 and 9. *)
Lemma area_filter_keeps_rows_in_range_witness :
  let stmt := gt_detections_base "D1" BBOX_OBJECT_DETECTION in
  let area := ST_Area (ST_Envelope (boundary models.GroundTruthDetection)) in
  ∃ filtered,
    returns (area_filter Detection stmt models.GroundTruthDetection
               (Some BBOX_OBJECT_DETECTION) (Some 4%Q) (Some 9%Q)) filtered ∧
    ∀ row : row_view,
      selects filtered row ↔
      selects stmt row ∧ within_bounds (Some 4%Q) (Some 9%Q) (row_value row area).
Proof.
  apply (area_filter_keeps_rows_in_range Detection
           (gt_detections_base "D1" BBOX_OBJECT_DETECTION)
           models.GroundTruthDetection (Some BBOX_OBJECT_DETECTION)
           (Some 4%Q) (Some 9%Q)).
  reflexivity.
Defined.

(** ** The statement builders, further *)

(** X6: the two instance-segmentation statement builders never raise: for
    every name, every pair of bounds and every task they return a statement,
    which has the entity, joins and first criterion of the base statement. *)
Theorem segmentation_statements_never_raise :
  ∀ (model_name dataset_name : string) (min_area max_area : option Q)
    (task : option Task),
    (∃ stmt,
       returns (_instance_segmentations_in_dataset_statement dataset_name
                  min_area max_area task) stmt ∧
       sel_entity stmt = models.LabeledGroundTruthSegmentation ∧
       sel_joins stmt = sel_joins (gt_segmentations_base dataset_name) ∧
       sel_where (gt_segmentations_base dataset_name) `prefix_of` sel_where stmt) ∧
    (∃ stmt,
       returns (_model_instance_segmentation_preds_statement model_name
                  dataset_name min_area max_area task) stmt ∧
       sel_entity stmt = models.LabeledPredictedSegmentation ∧
       sel_joins stmt = sel_joins (pred_segmentations_base model_name dataset_name) ∧
       sel_where (pred_segmentations_base model_name dataset_name)
         `prefix_of` sel_where stmt).
Proof.
  intros model_name dataset_name min_area max_area task. split.
  - eexists. unfold returns. rewrite gt_segmentations_statement_spec.
    split; [reflexivity|]. split; [reflexivity|]. split; [reflexivity|].
    cbn. eexists. reflexivity.
  - eexists. unfold returns. rewrite pred_segmentations_statement_spec.
    split; [reflexivity|]. split; [reflexivity|]. split; [reflexivity|].
    cbn. eexists. reflexivity.
Qed.

(** X7: the detection builders need a task for the area as soon as a bound
    is given. Called for a detection task with a bound but with a task for
    area computation that is neither bounding-box nor polygon detection (the
    default, no task, included), they build the base statement and then raise
    the unsupported-task error: no statement is returned and no area
    criterion was added. *)
Theorem detection_bounds_need_area_task :
  ∀ (model_name dataset_name : string) (task : Task)
    (min_area max_area : option Q) (task_for_area_computation : option Task),
    is_detection_task task = true →
    is_Some min_area ∨ is_Some max_area →
    task_for_area_computation ≠ Some BBOX_OBJECT_DETECTION →
    task_for_area_computation ≠ Some POLY_OBJECT_DETECTION →
    _object_detections_in_dataset_statement dataset_name task
        min_area max_area task_for_area_computation =
      (base_events (gt_detections_base dataset_name task),
       inl (UnsupportedAreaTask task_for_area_computation)) ∧
    _model_object_detection_preds_statement model_name dataset_name task
        min_area max_area task_for_area_computation =
      (base_events (pred_detections_base model_name dataset_name task),
       inl (UnsupportedAreaTask task_for_area_computation)).
Proof.
  intros model_name dataset_name task min_area max_area tfa Ht Hbound Hb Hp.
  apply bound_present in Hbound.
  unfold _object_detections_in_dataset_statement,
    _model_object_detection_preds_statement.
  rewrite Ht. split.
  - cbn -[_filter_object_detections_by_area].
    rewrite (det_filter_unsupported _ _ _ _ _ Hb Hp Hbound). reflexivity.
  - cbn -[_filter_object_detections_by_area].
    rewrite (det_filter_unsupported _ _ _ _ _ Hb Hp Hbound). reflexivity.
Qed.

(** With an upper bound and the task for area computation left out. *)
Lemma detection_bounds_need_area_task_witness :
  _object_detections_in_dataset_statement "D1" BBOX_OBJECT_DETECTION
      None (Some 100%Q) None =
    (base_events (gt_detections_base "D1" BBOX_OBJECT_DETECTION),
     inl (UnsupportedAreaTask None)) ∧
  _model_object_detection_preds_statement "M1" "D1" BBOX_OBJECT_DETECTION
      None (Some 100%Q) None =
    (base_events (pred_detections_base "M1" "D1" BBOX_OBJECT_DETECTION),
     inl (UnsupportedAreaTask None)).
Proof.
  apply (detection_bounds_need_area_task "M1" "D1" BBOX_OBJECT_DETECTION
           None (Some 100%Q) None).
  - reflexivity.
  - right. exists 100%Q. reflexivity.
  - discriminate.
  - discriminate.
Defined.

(** ** Task types present *)

Lemma gt_detections_statement_unbounded dataset_name task tfa :
  is_detection_task task = true →
  _object_detections_in_dataset_statement dataset_name task None None tfa =
    let base := gt_detections_base dataset_name task in
    (base_events base, inr base).
Proof.
  intros Ht. unfold _object_detections_in_dataset_statement. rewrite Ht.
  reflexivity.
Qed.

Lemma pred_detections_statement_unbounded model_name dataset_name task tfa :
  is_detection_task task = true →
  _model_object_detection_preds_statement model_name dataset_name task
      None None tfa =
    let base := pred_detections_base model_name dataset_name task in
    (base_events base, inr base).
Proof.
  intros Ht. unfold _model_object_detection_preds_statement. rewrite Ht.
  reflexivity.
Qed.

(** X8: [get_dataset_task_types] never raises. It builds the three base
    statements of the dataset without any area criterion (instance
    segmentations, then bounding-box, then polygon detections), asks for
    each whether it selects a row, and returns exactly the tasks for which
    it does; no other task is ever in the result. *)
Theorem dataset_task_types_present :
  ∀ (db : Stored) (dataset_name : string),
    let segs := gt_segmentations_base dataset_name in
    let boxes := gt_detections_base dataset_name BBOX_OBJECT_DETECTION in
    let polys := gt_detections_base dataset_name POLY_OBJECT_DETECTION in
    ∃ tasks : gset Task,
      get_dataset_task_types db dataset_name =
        ((base_events segs ++ base_events boxes ++ base_events polys)%list,
         inr tasks) ∧
      ∀ task, task ∈ tasks ↔
        (task = INSTANCE_SEGMENTATION ∧ has_rows db segs = true) ∨
        (task = BBOX_OBJECT_DETECTION ∧ has_rows db boxes = true) ∨
        (task = POLY_OBJECT_DETECTION ∧ has_rows db polys = true).
Proof.
  intros db dataset_name segs boxes polys.
  eexists. split.
  - unfold get_dataset_task_types. rewrite gt_segmentations_statement_spec.
    cbn [for_].
    rewrite !gt_detections_statement_unbounded by reflexivity.
    cbn [area_criteria app fmap list_fmap]. rewrite add_criteria_nil.
    reflexivity.
  - intros task. fold segs boxes polys.
    destruct (has_rows db segs), (has_rows db boxes), (has_rows db polys);
      set_solver.
Qed.

(** X9: [get_model_task_types] never raises. It builds the three base
    statements of the model's predictions on the dataset without any area
    criterion, asks for each whether it selects a row, and returns exactly
    the tasks for which it does. *)
Theorem model_task_types_present :
  ∀ (db : Stored) (model_name dataset_name : string),
    let segs := pred_segmentations_base model_name dataset_name in
    let boxes :=
      pred_detections_base model_name dataset_name BBOX_OBJECT_DETECTION in
    let polys :=
      pred_detections_base model_name dataset_name POLY_OBJECT_DETECTION in
    ∃ tasks : gset Task,
      get_model_task_types db model_name dataset_name =
        ((base_events segs ++ base_events boxes ++ base_events polys)%list,
         inr tasks) ∧
      ∀ task, task ∈ tasks ↔
        (task = INSTANCE_SEGMENTATION ∧ has_rows db segs = true) ∨
        (task = BBOX_OBJECT_DETECTION ∧ has_rows db boxes = true) ∨
        (task = POLY_OBJECT_DETECTION ∧ has_rows db polys = true).
Proof.
  intros db model_name dataset_name segs boxes polys.
  eexists. split.
  - unfold get_model_task_types. rewrite pred_segmentations_statement_spec.
    cbn [for_].
    rewrite !pred_detections_statement_unbounded by reflexivity.
    cbn [area_criteria app fmap list_fmap]. rewrite add_criteria_nil.
    reflexivity.
  - intros task. fold segs boxes polys.
    destruct (has_rows db segs), (has_rows db boxes), (has_rows db polys);
      set_solver.
Qed.

(** ** Look-ups *)

Lemma scalar_where_spec {A} (criteria : A → bool) (table : list A) :
  match scalar_where criteria table with
  | Some row => row ∈ table ∧ criteria row = true
  | None => ∀ row, row ∈ table → criteria row = false
  end.
Proof.
  unfold scalar_where. destruct (List.find criteria table) as [row|] eqn:Hfind.
  - apply find_some in Hfind as [Hin Hrow]. by apply list_elem_of_In in Hin.
  - intros row Hin. apply list_elem_of_In in Hin.
    by apply (find_none _ _ Hfind).
Qed.

(** X10: [get_dataset] and [get_model] either return a stored object that
    bears the name asked for, or raise the does-not-exist error carrying that
    name, and they raise only when no stored object bears it. *)
Theorem get_by_name_found_or_missing :
  ∀ (db : Database) (name : string),
    ((∃ dset, get_dataset db name = mret dset ∧
              dset ∈ table_dataset db ∧ stored.dataset_name dset = name) ∨
     (get_dataset db name =
        fail (Missing (exceptions.DatasetDoesNotExistError name)) ∧
      ∀ dset, dset ∈ table_dataset db → stored.dataset_name dset ≠ name)) ∧
    ((∃ model, get_model db name = mret model ∧
               model ∈ table_model db ∧ stored.model_name model = name) ∨
     (get_model db name =
        fail (Missing (exceptions.ModelDoesNotExistError name)) ∧
      ∀ model, model ∈ table_model db → stored.model_name model ≠ name)).
Proof.
  intros db name. split.
  - unfold get_dataset.
    pose proof (scalar_where_spec
      (λ d, bool_decide (stored.dataset_name d = name)) (table_dataset db)) as H.
    destruct (scalar_where _ _) as [dset|].
    + left. exists dset. destruct H as [Hin Hname].
      apply bool_decide_eq_true in Hname. done.
    + right. split; [reflexivity|]. intros dset Hin.
      specialize (H dset Hin). by apply bool_decide_eq_false in H.
  - unfold get_model.
    pose proof (scalar_where_spec
      (λ m, bool_decide (stored.model_name m = name)) (table_model db)) as H.
    destruct (scalar_where _ _) as [model|].
    + left. exists model. destruct H as [Hin Hname].
      apply bool_decide_eq_true in Hname. done.
    + right. split; [reflexivity|]. intros model Hin.
      specialize (H model Hin). by apply bool_decide_eq_false in H.
Qed.

(** X11: [get_image] either returns a stored image that has the uid asked
    for and belongs, by its [dataset_id], to a dataset of the name asked
    for, or raises [ImageDoesNotExistError] with the uid and the name; it
    raises only when no stored image is such. An image with the right uid
    in a dataset of another name is not found. *)
Theorem get_image_found_or_missing :
  ∀ (db : Database) (uid dataset_name : string),
    let in_named_dataset (image : stored.Image) :=
      ∃ dset, dset ∈ table_dataset db ∧
              stored.dataset_id image = stored.dataset_key dset ∧
              stored.dataset_name dset = dataset_name in
    (∃ image, get_image db uid dataset_name = mret image ∧
              image ∈ table_image db ∧ stored.uid image = uid ∧
              in_named_dataset image) ∨
    (get_image db uid dataset_name =
       fail (Missing (exceptions.ImageDoesNotExistError uid dataset_name)) ∧
     ∀ image, image ∈ table_image db → stored.uid image = uid →
              ¬ in_named_dataset image).
Proof.
  intros db uid dataset_name in_named. subst in_named. unfold get_image.
  match goal with |- context [scalar_where ?c ?t] =>
    pose proof (scalar_where_spec c t) as H; destruct (scalar_where c t) as [image|]
  end.
  - left. exists image. destruct H as [Hin Hcrit].
    apply andb_true_iff in Hcrit as [Huid Hex].
    apply bool_decide_eq_true in Huid.
    apply existsb_exists in Hex as (dset & Hdin & Hd).
    apply andb_true_iff in Hd as [Hkey Hname].
    apply bool_decide_eq_true in Hkey, Hname.
    repeat (split; [done|]). exists dset.
    by rewrite list_elem_of_In.
  - right. split; [reflexivity|].
    intros image Hin Huid (dset & Hdin & Hkey & Hname).
    specialize (H image Hin). cbn in H.
    apply andb_false_iff in H as [H|H].
    + by apply bool_decide_eq_false in H.
    + apply not_true_iff_false in H. apply H.
      apply existsb_exists. exists dset. split; [by apply list_elem_of_In|].
      by rewrite !bool_decide_eq_true_2.
Qed.

Lemma elem_of_foldl_union {A} (f : A → gset Z) (l : list A) (acc : gset Z) (x : Z) :
  x ∈ foldl (λ acc a, f a ∪ acc) acc l ↔ x ∈ acc ∨ ∃ a, a ∈ l ∧ x ∈ f a.
Proof.
  revert acc. induction l as [|a l IH]; intros acc; cbn.
  - split; [by left|]. intros [?|(a & Ha & _)]; [done|].
    by apply elem_of_nil in Ha.
  - rewrite IH, elem_of_union. split.
    + intros [[?|?]|(b & Hb & ?)]; [right; exists a|by left|right; exists b];
        split; first [by left | by right | done].
    + intros [?|(b & [->|Hb]%elem_of_cons & ?)];
        [left; by right|left; by left|right; by exists b].
Qed.

(** X12: [get_labels_in_dataset] raises what [get_dataset] raises when the
    dataset is missing. Otherwise it returns the rows of the label table
    whose id is the id of a label attached to some image of the dataset: a
    label that no image of the dataset carries is not returned, however
    often it is stored, and a label that is not in the table is not returned
    either. *)
Theorem labels_in_dataset_are_attached :
  ∀ (db : Database) (dataset_name : string),
    match result (get_dataset db dataset_name) with
    | inl e => get_labels_in_dataset db dataset_name = fail e
    | inr dset =>
        ∃ labels,
          get_labels_in_dataset db dataset_name = mret labels ∧
          ∀ label, label ∈ labels ↔
            label ∈ table_label db ∧
            ∃ image attached,
              image ∈ stored.images dset ∧
              attached ∈ attached_labels (walked image) ∧
              orm.id attached = orm.id label
    end.
Proof.
  intros db dataset_name. unfold get_labels_in_dataset.
  assert (Hsilent : fst (get_dataset db dataset_name) = []).
  { unfold get_dataset. by destruct (scalar_where _ _). }
  destruct (get_dataset db dataset_name) as [log [e|dset]]; cbn in Hsilent;
    subst log; cbn [result snd].
  - reflexivity.
  - eexists. split; [reflexivity|].
    intros label. unfold scalars_where.
    rewrite list_elem_of_In, filter_In, <- list_elem_of_In, bool_decide_eq_true.
    rewrite elem_of_foldl_union.
    split; intros [Hin Hcarried]; (split; [exact Hin|]).
    + destruct Hcarried as [Hempty|(image & Himage & Hid)];
        [by apply not_elem_of_empty in Hempty|].
      rewrite unique_label_ids_as_list, elem_of_list_to_set in Hid.
      apply list_elem_of_fmap in Hid as (attached & Hid & Hattached).
      by exists image, attached.
    + destruct Hcarried as (image & attached & Himage & Hattached & Hid).
      right. exists image. split; [done|].
      rewrite unique_label_ids_as_list, elem_of_list_to_set, <- Hid.
      by apply list_elem_of_fmap_2.
Qed.

(** ** Laws of the data-access computations *)

Lemma R_bind_mret {A B} (a : A) (f : A → R B) : mret a ≫= f = f a.
Proof. unfold mret, R_ret, mbind, R_bind. by destruct (f a). Qed.

Lemma result_bind {A B} (m : R A) (f : A → R B) :
  result (m ≫= f) =
    match result m with
    | inl e => inl e
    | inr a => result (f a)
    end.
Proof.
  destruct m as [log [e|a]]; cbn; [done|]. by destruct (f a).
Qed.

Lemma result_lift {A} (m : M A) :
  result (lift m) =
    match outcome m with
    | inl e => inl (Raised e)
    | inr a => inr a
    end.
Proof. by destruct m as [log [e|a]]. Qed.

Lemma outcome_bind {A B} (m : M A) (f : A → M B) :
  outcome (m ≫= f) =
    match outcome m with
    | inl e => inl e
    | inr a => outcome (f a)
    end.
Proof.
  destruct m as [log [e|a]]; cbn; [done|]. by destruct (f a).
Qed.

(** A comprehension returns when each element does, element by element,
    and fails as soon as one element fails. *)
Lemma result_mapM_inr {A B} (f : A → R B) (l : list A) (ys : list B) :
  result (mapM f l) = inr ys ↔ Forall2 (λ x y, result (f x) = inr y) l ys.
Proof.
  revert ys. induction l as [|x l IH]; intros ys; cbn [mapM].
  - split.
    + intros [= <-]. constructor.
    + intros ->%Forall2_nil_inv_l. reflexivity.
  - rewrite result_bind. split.
    + destruct (result (f x)) as [e|y] eqn:Hx; [done|].
      rewrite result_bind.
      destruct (result (mapM f l)) as [e|ys'] eqn:Hl; [done|].
      intros [= <-]. constructor; [done|]. by apply IH.
    + intros (y & ys' & Hy & Hys & ->)%Forall2_cons_inv_l.
      rewrite Hy, result_bind. apply IH in Hys. rewrite Hys. reflexivity.
Qed.

Lemma result_mapM_inl {A B} (f : A → R B) (l : list A) :
  Exists (λ x, ∃ e, result (f x) = inl e) l →
  ∃ e, result (mapM f l) = inl e.
Proof.
  induction l as [|x l IH]; intros Hex; [by apply Exists_nil in Hex|].
  cbn [mapM]. rewrite result_bind.
  destruct (result (f x)) as [e|y] eqn:Hx; [by exists e|].
  apply Exists_cons in Hex as [[e He]|Hex]; [congruence|].
  rewrite result_bind. destruct (IH Hex) as [e He]. rewrite He. by exists e.
Qed.

(** The box of a list of points, as both [_get_bounding_box_of_raster] and
    [get_groundtruth_detections_in_image] compute it: when it is returned,
    the list is not empty, its points have two coordinates, and the box
    encloses them tightly. *)
Lemma box_of_points_returns (points : list (list Z)) (box : Z * Z * Z * Z) :
  outcome (xs ← mapM (λ pt, getitem pt 0) points;
           ys ← mapM (λ pt, getitem pt 1) points;
           x_min ← py_min xs;
           y_min ← py_min ys;
           x_max ← py_max xs;
           y_max ← py_max ys;
           mret (x_min, y_min, x_max, y_max)) = inr box →
  encloses_tightly box points.
Proof.
  intros Hbox. unfold encloses_tightly.
  destruct (decide (Exists (λ pt, (length pt ≤ 0)%nat) points)) as [H0|H0].
  { rewrite (comprehension_getitem_raises 0 points H0) in Hbox. done. }
  apply not_Exists_Forall in H0; [|intros pt; apply _].
  destruct (comprehension_getitem_returns 0 points) as (xs & Hxs & Hxs2).
  { eapply Forall_impl; [exact H0|]. cbn. lia. }
  rewrite Hxs, bind_mret in Hbox.
  destruct (decide (Exists (λ pt, (length pt ≤ 1)%nat) points)) as [H1|H1].
  { rewrite (comprehension_getitem_raises 1 points H1) in Hbox. done. }
  apply not_Exists_Forall in H1; [|intros pt; apply _].
  destruct (comprehension_getitem_returns 1 points) as (ys & Hys & Hys2).
  { eapply Forall_impl; [exact H1|]. cbn. lia. }
  rewrite Hys, bind_mret in Hbox.
  destruct (decide (points = [])) as [->|Hne].
  { apply Forall2_nil_inv_l in Hxs2 as ->. done. }
  assert (Hxne : xs ≠ []).
  { intros ->. apply Forall2_nil_inv_r in Hxs2. done. }
  assert (Hyne : ys ≠ []).
  { intros ->. apply Forall2_nil_inv_r in Hys2. done. }
  destruct (py_min_spec xs Hxne) as (x_min & Hx0 & Hx0in & Hx0le).
  destruct (py_min_spec ys Hyne) as (y_min & Hy0 & Hy0in & Hy0le).
  destruct (py_max_spec xs Hxne) as (x_max & Hx1 & Hx1in & Hx1le).
  destruct (py_max_spec ys Hyne) as (y_max & Hy1 & Hy1in & Hy1le).
  rewrite Hx0, bind_mret, Hy0, bind_mret, Hx1, bind_mret, Hy1, bind_mret in Hbox.
  injection Hbox as <-.
  destruct (Forall2_getitem_elem 0 points xs Hxs2) as [Hxfrom Hxto].
  destruct (Forall2_getitem_elem 1 points ys Hys2) as [Hyfrom Hyto].
  split; [done|]. split.
  { intros pt Hpt.
    rewrite Forall_forall in H0, H1.
    destruct (lookup_lt_is_Some_2 pt 0) as [x Hx];
      [specialize (H0 pt Hpt); cbn in H0; lia|].
    destruct (lookup_lt_is_Some_2 pt 1) as [y Hy];
      [specialize (H1 pt Hpt); cbn in H1; lia|].
    exists x, y. split; [done|]. split; [done|].
    pose proof (Hxto pt x Hpt Hx) as Hxin.
    pose proof (Hyto pt y Hpt Hy) as Hyin.
    pose proof (Hx0le x Hxin). pose proof (Hx1le x Hxin).
    pose proof (Hy0le y Hyin). pose proof (Hy1le y Hyin). lia. }
  split; [by apply Hxfrom|]. split; [by apply Hyfrom|].
  split; [by apply Hxfrom|by apply Hyfrom].
Qed.

(** ** Detections and segmentations of an image *)

Lemma boundary_points_returns detection ring :
  result (_boundary_points_from_detection detection) = inr ring →
  coordinates (stored.boundary_geojson detection) = [ring].
Proof.
  unfold _boundary_points_from_detection.
  destruct (coordinates (stored.boundary_geojson detection))
    as [|ring' [|ring'' rings]]; cbn; try done.
  by intros [= ->].
Qed.

(** X13: what [get_groundtruth_detections_in_image] returns for an image
    that is found. There is one detection per stored detection, in order;
    each carries the image's uid and stored size and the (key, value) pairs
    of the stored labels; the stored boundary is one ring. A detection
    stored as a box carries no boundary and the tight bounding box of that
    ring, whatever the ring's shape, and a detection stored as a polygon
    carries no box and the ring itself. *)
Theorem detections_in_image_as_stored :
  ∀ (db : Database) (uid dataset_name : string) (db_img : stored.Image)
    (dets : list returned.GroundTruthDetection),
    get_image db uid dataset_name = mret db_img →
    result (get_groundtruth_detections_in_image db uid dataset_name) =
      inr dets →
    Forall2
      (λ gt_det det,
         returned.detection_image det =
           schemas.mkImage uid (stored.height db_img) (stored.width db_img)
             (stored.frame db_img) ∧
         returned.detection_labels det =
           ((λ l, _db_label_to_schemas_label (orm.detection_label l))
              <$> stored.labeled_ground_truth_detections gt_det) ∧
         ∃ ring,
           coordinates (stored.boundary_geojson gt_det) = [ring] ∧
           if stored.is_bbox gt_det then
             returned.boundary det = None ∧
             ∃ box, returned.bbox det = Some box ∧ encloses_tightly box ring
           else
             returned.bbox det = None ∧ returned.boundary det = Some ring)
      (stored.ground_truth_detections db_img) dets.
Proof.
  intros db uid dataset_name db_img dets Himg Hres.
  unfold get_groundtruth_detections_in_image in Hres.
  rewrite Himg, R_bind_mret in Hres. cbn zeta in Hres.
  apply result_mapM_inr in Hres.
  eapply Forall2_impl; [exact Hres|]. clear Hres.
  intros gt_det det Hdet. cbn beta in Hdet.
  rewrite result_bind in Hdet.
  destruct (result (_boundary_points_from_detection gt_det))
    as [e|ring] eqn:Hring; [done|].
  pose proof (boundary_points_returns _ _ Hring) as Hcoords.
  destruct (stored.is_bbox gt_det).
  - rewrite result_bind, result_lift in Hdet.
    destruct (outcome (mapM (λ b, getitem b 0) ring)) as [e|xs] eqn:Hxs; [done|].
    rewrite result_bind, result_lift in Hdet.
    destruct (outcome (mapM (λ b, getitem b 1) ring)) as [e|ys] eqn:Hys; [done|].
    rewrite result_bind, result_lift in Hdet.
    destruct (outcome (py_min xs)) as [e|x_min] eqn:Hx0; [done|].
    rewrite result_bind, result_lift in Hdet.
    destruct (outcome (py_min ys)) as [e|y_min] eqn:Hy0; [done|].
    rewrite result_bind, result_lift in Hdet.
    destruct (outcome (py_max xs)) as [e|x_max] eqn:Hx1; [done|].
    rewrite result_bind, result_lift in Hdet.
    destruct (outcome (py_max ys)) as [e|y_max] eqn:Hy1; [done|].
    cbn in Hdet. injection Hdet as <-. cbn.
    split; [done|]. split; [done|].
    exists ring. split; [done|]. split; [done|].
    exists (x_min, y_min, x_max, y_max). split; [done|].
    apply box_of_points_returns.
    rewrite outcome_bind, Hxs, outcome_bind, Hys.
    rewrite outcome_bind, Hx0, outcome_bind, Hy0.
    rewrite outcome_bind, Hx1, outcome_bind, Hy1. reflexivity.
  - rewrite result_bind, Hring in Hdet. cbn in Hdet. injection Hdet as <-.
    cbn. split; [done|]. split; [done|]. by exists ring.
Qed.

(** On the image of the small database: the triangle stored as a box comes
    back as the box from (1, 2) to (4, 7). *)
Lemma detections_in_image_as_stored_witness :
  ∃ boxed polygon,
    result (get_groundtruth_detections_in_image small_db "img1" "D1") =
      inr [boxed; polygon] ∧
    returned.bbox boxed = Some (1, 2, 4, 7) ∧
    returned.boundary polygon = Some [[1; 5]; [4; 2]; [3; 7]; [1; 5]] ∧
    Forall2
      (λ gt_det det,
         returned.detection_image det = schemas.mkImage "img1" 5 5 None ∧
         returned.detection_labels det =
           ((λ l, _db_label_to_schemas_label (orm.detection_label l))
              <$> stored.labeled_ground_truth_detections gt_det) ∧
         ∃ ring,
           coordinates (stored.boundary_geojson gt_det) = [ring] ∧
           if stored.is_bbox gt_det then
             returned.boundary det = None ∧
             ∃ box, returned.bbox det = Some box ∧ encloses_tightly box ring
           else
             returned.bbox det = None ∧ returned.boundary det = Some ring)
      [boxed_triangle; polygon_triangle] [boxed; polygon].
Proof.
  eexists _, _. split; [reflexivity|]. split; [reflexivity|].
  split; [reflexivity|].
  apply (detections_in_image_as_stored small_db "img1" "D1" img1).
  - reflexivity.
  - reflexivity.
Defined.


Lemma result_mapM_raised {A B} (f : A → R B) (l : list A) :
  (∀ x e, result (f x) = inl e → ∃ e', e = Raised e') →
  Exists (λ x, ∃ e, result (f x) = inl e) l →
  ∃ e', result (mapM f l) = inl (Raised e').
Proof.
  intros Hraised Hex. destruct (result_mapM_inl f l Hex) as [e He].
  enough (∃ e', e = Raised e') as [e' ->] by by exists e'.
  clear Hex. revert e He. induction l as [|x l IH]; intros e; cbn [mapM].
  - done.
  - rewrite result_bind.
    destruct (result (f x)) as [e0|y] eqn:Hx.
    + intros [= <-]. by eapply Hraised.
    + rewrite result_bind. destruct (result (mapM f l)) as [e1|ys]; [|done].
      intros [= <-]. by apply IH.
Qed.



(** X15: one mask that cannot be reconstructed fails the whole listing. If
    the image is found and some row of the segmentation table that belongs
    to it and is of the kind asked for has a raster on which
    [_raster_to_png_b64] raises, then
    [get_groundtruth_segmentations_in_image] raises too (that exception, or
    the one of an earlier row) and returns no segmentation at all. *)
Theorem one_failed_mask_fails_the_listing :
  ∀ (codec : PIL.Codec) (session : Session) (db : Database)
    (uid dataset_name : string) (are_instance : bool)
    (db_img : stored.Image) (gt_seg : stored.GroundTruthSegmentation)
    (e : exn),
    get_image db uid dataset_name = mret db_img →
    gt_seg ∈ table_segmentation db →
    stored.image_id gt_seg = stored.id db_img →
    stored.is_instance gt_seg = are_instance →
    raises (_raster_to_png_b64 codec session (stored.shape gt_seg)
              (schemas.mkImage uid (stored.height db_img)
                 (stored.width db_img) (stored.frame db_img))) e →
    ∃ e', result (get_groundtruth_segmentations_in_image codec session db uid
                    dataset_name are_instance) = inl (Raised e').
Proof.
  intros codec session db uid dataset_name are_instance db_img gt_seg e
    Himg Hin Hid Hkind Hraises.
  unfold get_groundtruth_segmentations_in_image.
  rewrite Himg, R_bind_mret. cbn zeta.
  apply result_mapM_raised.
  - intros x e0. rewrite result_bind, result_lift.
    destruct (outcome _) as [e1|shape]; [|done].
    intros [= <-]. by exists e1.
  - apply Exists_exists. exists gt_seg. split.
    + unfold scalars_where. apply list_elem_of_In, filter_In.
      split; [by apply list_elem_of_In|].
      by rewrite !bool_decide_eq_true_2.
    + exists (Raised e). rewrite result_bind, result_lift.
      unfold raises in Hraises. by rewrite Hraises.
Qed.

(** With rasters that decode as three-band colour. *)
Lemma one_failed_mask_fails_the_listing_witness :
  ∃ e', result (get_groundtruth_segmentations_in_image raw.codec
                  (patch_at 2 2 colour_patch) small_db "img1" "D1" false) =
          inl (Raised e').
Proof.
  apply (one_failed_mask_fails_the_listing raw.codec
           (patch_at 2 2 colour_patch) small_db "img1" "D1" false img1
           semantic_mask MaskFormatError).
  - reflexivity.
  - cbn. right. left.
  - reflexivity.
  - reflexivity.
  - reflexivity.
Defined.

Lemma get_image_missing (db : Database) (uid dataset_name : string) :
  (∀ image dset, image ∈ table_image db → dset ∈ table_dataset db →
     stored.uid image = uid →
     stored.dataset_id image = stored.dataset_key dset →
     stored.dataset_name dset ≠ dataset_name) →
  get_image db uid dataset_name =
    fail (Missing (exceptions.ImageDoesNotExistError uid dataset_name)).
Proof.
  intros Hnone. unfold get_image.
  match goal with |- context [scalar_where ?c ?t] =>
    pose proof (scalar_where_spec c t) as H; destruct (scalar_where c t) as [image|]
  end; [|reflexivity].
  destruct H as [Hin Hcrit].
  apply andb_true_iff in Hcrit as [Huid Hex].
  apply bool_decide_eq_true in Huid.
  apply existsb_exists in Hex as (dset & Hdin & Hd).
  apply andb_true_iff in Hd as [Hkey Hname].
  apply bool_decide_eq_true in Hkey, Hname.
  apply list_elem_of_In in Hdin.
  by destruct (Hnone image dset Hin Hdin Huid Hkey).
Qed.

(** X16: the annotations of an image that is not stored. When no stored
    image has the uid and lies in a dataset of the name, the detections
    listing and the segmentations listing both raise
    [ImageDoesNotExistError] with the uid and the name, before any raster or
    boundary is looked at. *)
Theorem annotations_of_missing_image :
  ∀ (codec : PIL.Codec) (session : Session) (db : Database)
    (uid dataset_name : string) (are_instance : bool),
    (∀ image dset, image ∈ table_image db → dset ∈ table_dataset db →
       stored.uid image = uid →
       stored.dataset_id image = stored.dataset_key dset →
       stored.dataset_name dset ≠ dataset_name) →
    let missing {A} : R A :=
      fail (Missing (exceptions.ImageDoesNotExistError uid dataset_name)) in
    get_groundtruth_detections_in_image db uid dataset_name = missing ∧
    get_groundtruth_segmentations_in_image codec session db uid dataset_name
      are_instance = missing.
Proof.
  intros codec session db uid dataset_name are_instance Hnone missing.
  subst missing.
  unfold get_groundtruth_detections_in_image,
    get_groundtruth_segmentations_in_image.
  rewrite (get_image_missing _ _ _ Hnone). split; reflexivity.
Qed.

(** The image of the small database asked for under another dataset. *)
Lemma annotations_of_missing_image_witness :
  get_groundtruth_detections_in_image small_db "img1" "D2" =
    fail (Missing (exceptions.ImageDoesNotExistError "img1" "D2")) ∧
  get_groundtruth_segmentations_in_image raw.codec
      (patch_at 2 2 corner_patch) small_db "img1" "D2" true =
    fail (Missing (exceptions.ImageDoesNotExistError "img1" "D2")).
Proof.
  apply (annotations_of_missing_image raw.codec (patch_at 2 2 corner_patch)
           small_db "img1" "D2" true).
  intros image dset Himage Hdset _ _. cbn in Hdset.
  apply elem_of_cons in Hdset as [->|Hnil]; [discriminate|].
  by apply elem_of_nil in Hnil.
Defined.

(** ** Metrics *)

Lemma metrics_of_present_parameters (mps : list stored.MetricParameters) :
  get_metrics_from_metric_params (Some <$> mps) =
    mret (mp ← mps; response_of mp <$> stored.ap_metrics mp).
Proof.
  unfold get_metrics_from_metric_params.
  assert (Hper : mapM (λ mp : option stored.MetricParameters,
                    '(mp, metrics) ← getattr_ap_metrics mp;
                    mret ((λ m, returned.mkMetricResponse
                            (stored.tablename m)
                            (_db_metric_params_to_pydantic_metric_params mp)
                            (_db_metric_to_pydantic_metric m)) <$> metrics))
                  (Some <$> mps) =
                (mret ((λ mp, response_of mp <$> stored.ap_metrics mp) <$> mps)
                   : R _)).
  { induction mps as [|mp mps IH]; [reflexivity|].
    cbn [fmap list_fmap mapM getattr_ap_metrics].
    rewrite !R_bind_mret. cbn [fmap list_fmap] in IH. rewrite IH.
    rewrite R_bind_mret. reflexivity. }
  rewrite Hper, R_bind_mret. f_equal. f_equal. clear Hper.
  induction mps as [|mp mps IH]; [reflexivity|]. cbn. by rewrite IH.
Qed.

(** X17: metrics by the id of their parameters. When a row of the
    metric-parameters table has the id, the function returns one response
    per AP metric of the first such row, in order, each with that row's
    model and dataset names and task types. When no row has the id it does
    not raise a does-not-exist error: it fails with an [AttributeError], from
    reading [ap_metrics] off [None]. *)
Theorem metrics_by_parameters_id :
  ∀ (db : Database) (metric_params_id : Z),
    (∃ mp, mp ∈ table_metric_parameters db ∧
           stored.metric_parameters_key mp = metric_params_id ∧
           get_metrics_from_metric_params_id db metric_params_id =
             mret (response_of mp <$> stored.ap_metrics mp)) ∨
    ((∀ mp, mp ∈ table_metric_parameters db →
            stored.metric_parameters_key mp ≠ metric_params_id) ∧
     get_metrics_from_metric_params_id db metric_params_id =
       fail AttributeError).
Proof.
  intros db metric_params_id. unfold get_metrics_from_metric_params_id.
  match goal with |- context [scalar_where ?c ?t] =>
    pose proof (scalar_where_spec c t) as H; destruct (scalar_where c t) as [mp|]
  end.
  - left. exists mp. destruct H as [Hin Hkey].
    apply bool_decide_eq_true in Hkey. split; [done|]. split; [done|].
    change [Some mp] with (Some <$> [mp]).
    rewrite (metrics_of_present_parameters [mp]). cbn.
    by rewrite app_nil_r.
  - right. split; [|reflexivity]. intros mp Hin.
    specialize (H mp Hin). by apply bool_decide_eq_false in H.
Qed.

(** X18: the metrics of a model. For an unknown model name
    [get_model_metrics] raises [ModelDoesNotExistError]. Otherwise it
    returns, and never fails on a missing attribute: the responses are
    exactly those of the AP metrics of the metric parameters whose model has
    the id of the model found. *)
Theorem model_metrics_found_or_missing :
  ∀ (db : Database) (model_name : string),
    (∃ model responses,
       get_model db model_name = mret model ∧
       get_model_metrics db model_name = mret responses ∧
       ∀ response, response ∈ responses ↔
         ∃ mp m, mp ∈ table_metric_parameters db ∧
                 stored.model_key (stored.model mp) = stored.model_key model ∧
                 m ∈ stored.ap_metrics mp ∧
                 response = response_of mp m) ∨
    ((∀ model, model ∈ table_model db →
               stored.model_name model ≠ model_name) ∧
     get_model_metrics db model_name =
       fail (Missing (exceptions.ModelDoesNotExistError model_name))).
Proof.
  intros db model_name. unfold get_model_metrics, get_model.
  match goal with |- context [scalar_where ?c ?t] =>
    pose proof (scalar_where_spec c t) as H; destruct (scalar_where c t) as [model|]
  end.
  - left. eexists model, _. split; [reflexivity|].
    rewrite R_bind_mret, metrics_of_present_parameters.
    split; [reflexivity|].
    intros response. rewrite list_elem_of_bind. unfold scalars_where. split.
    + intros (mp & Hresp & Hmp).
      apply list_elem_of_In, filter_In in Hmp as [Hmp Hkey].
      apply list_elem_of_In in Hmp. apply bool_decide_eq_true in Hkey.
      apply list_elem_of_fmap in Hresp as (m & -> & Hm).
      by exists mp, m.
    + intros (mp & m & Hmp & Hkey & Hm & ->). exists mp. split.
      * by apply list_elem_of_fmap_2.
      * apply list_elem_of_In, filter_In. split; [by apply list_elem_of_In|].
        by apply bool_decide_eq_true.
  - right. split; [|reflexivity]. intros model Hin.
    specialize (H model Hin). by apply bool_decide_eq_false in H.
Qed.

(** ** Mask reconstruction, further *)

(** X19: an envelope that has not the size of the decoded patch. With a
    patch of mode "L" and an image of non-negative size, reconstruction then
    raises the [ValueError] of [paste] after the full-size image has been
    allocated; nothing is remapped, converted or saved and no mask is
    returned. *)
Theorem envelope_size_mismatch_raises :
  ∀ (codec : PIL.Codec) (db : Session) (raster : RasterElement)
    (image : schemas.Image) (box : Z * Z * Z * Z) (patch : PIL.Image),
    returns (_get_bounding_box_of_raster db raster) box →
    PIL.png_open codec (as_png db raster) = Some patch →
    PIL.mode patch = "L"%string →
    0 ≤ schemas.width image → 0 ≤ schemas.height image →
    box_size box ≠ (PIL.width patch, PIL.height patch) →
    _raster_to_png_b64 codec db raster image =
      ([ EvDbScalar (Req_AsGeoJSON_Envelope raster);
         EvDbScalar (Req_AsPNG raster);
         EvImageOpen;
         EvImageNew (schemas.width image) (schemas.height image);
         EvPaste ],
       inl (ValueError Images_do_not_match)).
Proof.
  intros codec db raster image box patch Hbox Hopen Hmode Hw Hh Hsize.
  destruct box as [[[x0 y0] x1] y1]. cbn in Hsize.
  unfold _raster_to_png_b64.
  rewrite (bounding_box_returns _ _ _ Hbox). unfold PIL.open.
  rewrite Hopen. cbn [mbind M_bind mret M_ret emit raise app].
  rewrite Hmode, (bool_decide_eq_true_2 ("L"%string = "L"%string)) by done.
  cbn [mbind M_bind mret M_ret emit raise app assert_].
  rewrite new_spec by lia. unfold PIL.paste.
  rewrite bool_decide_eq_false_2; [reflexivity|].
  intros [Hx Hy]. apply Hsize. cbn in Hx, Hy. congruence.
Qed.

(** A 2 × 2 patch whose envelope is 3 wide. *)
Lemma envelope_size_mismatch_raises_witness :
  _raster_to_png_b64 raw.codec (answering (rectangle 2 2 5 4) corner_patch)
      "raster" five_by_five =
    ([ EvDbScalar (Req_AsGeoJSON_Envelope "raster");
       EvDbScalar (Req_AsPNG "raster");
       EvImageOpen;
       EvImageNew 5 5;
       EvPaste ],
     inl (ValueError Images_do_not_match)).
Proof.
  apply (envelope_size_mismatch_raises raw.codec
           (answering (rectangle 2 2 5 4) corner_patch) "raster" five_by_five
           (2, 2, 5, 4) corner_patch).
  - reflexivity.
  - reflexivity.
  - reflexivity.
  - cbn. lia.
  - cbn. lia.
  - cbn. intros [= ?].
Defined.

(** X20: only the value 1 is foreground. When no pixel of the patch is 1
    (a patch that stores its foreground as 255, say), a reconstruction that
    passes the checks returns a mask that is black everywhere. *)
Theorem mask_without_ones_is_black :
  ∀ (codec : PIL.Codec) (db : Session) (raster : RasterElement)
    (image : schemas.Image) (box : Z * Z * Z * Z) (patch : PIL.Image),
    returns (_get_bounding_box_of_raster db raster) box →
    PIL.png_open codec (as_png db raster) = Some patch →
    PIL.mode patch = "L"%string →
    0 ≤ schemas.width image → 0 ≤ schemas.height image →
    box_size box = (PIL.width patch, PIL.height patch) →
    (∀ i j, PIL.getpixel patch i j ≠ Some 1) →
    ∃ mask,
      returns (_raster_to_png_b64 codec db raster image)
        (PIL.b64encode codec (PIL.png_save codec mask)) ∧
      two_level mask ∧
      ∀ x y, 0 ≤ x < schemas.width image → 0 ≤ y < schemas.height image →
        PIL.getpixel mask x y = Some 0.
Proof.
  intros codec db raster image box patch Hbox Hopen Hmode Hw Hh Hsize Hno1.
  destruct (reconstruction_steps codec db raster image box patch
              Hbox Hopen Hmode Hw Hh Hsize)
    as (canvas & pasted & remapped & mask & _ & _ & _ & _ &
        Hrun & _ & Hpx & _ & Htwo).
  exists mask. split; [unfold returns; by rewrite Hrun|]. split; [exact Htwo|].
  intros x y Hx Hy. destruct (Hpx x y Hx Hy) as (_ & _ & _ & ->).
  unfold mask_pixel. destruct box as [[[x0 y0] x1] y1].
  rewrite bool_decide_eq_false_2; [done|].
  intros (_ & _ & H1). by apply (Hno1 _ _ H1).
Qed.

(** The patch with its foreground stored as 255. *)
Lemma mask_without_ones_is_black_witness :
  ∃ mask,
    returns (_raster_to_png_b64 raw.codec (patch_at 2 2 bright_patch)
               "raster" five_by_five)
      (PIL.b64encode raw.codec (PIL.png_save raw.codec mask)) ∧
    two_level mask ∧
    ∀ x y, 0 ≤ x < 5 → 0 ≤ y < 5 → PIL.getpixel mask x y = Some 0.
Proof.
  apply (mask_without_ones_is_black raw.codec (patch_at 2 2 bright_patch)
           "raster" five_by_five (2, 2, 4, 4) bright_patch).
  - reflexivity.
  - reflexivity.
  - reflexivity.
  - cbn. lia.
  - cbn. lia.
  - reflexivity.
  - intros i j. unfold PIL.getpixel. case_bool_decide; [|discriminate].
    cbn [PIL.data bright_patch].
    destruct (Z.to_nat j) as [|[|[|n]]], (Z.to_nat i) as [|[|[|m]]];
      cbn; discriminate.
Defined.
